(** * perf: benchmark data model, file format, significance test, formatter

    A shallow embedding of [perf/__init__.py] (perf 0.7) and the properties
    of its core that the specification states.

    Conventions of the embedding.
    - The code is read as Python 3 runs it: [/] is true division, [round]
      rounds a tie to the even integer, [str.strip] strips what
      [str.isspace] accepts (strings are ASCII here).
    - Python [int] is [Z]; a finite Python [float] is taken at its exact
      rational value ([Q]) in the data model and at its real value ([R]) in
      the significance engine, so arithmetic is exact: rounding, infinities
      and NaN are outside the model.
    - A Python exception is a constructor of [exn]; a call that can raise
      returns a [result].  The built-in [ValueError] is the error that the
      specification calls ValidationError.
    - A method that mutates its object is a function from the object's
      state to an outcome and the state it leaves behind, so that what an
      exception leaves behind can be stated.
    - A [dict] with string keys is a [gmap string _].
    - [int(text)] reads ASCII digits, with the underscores that Python 3.6
      and later accept between them; ["%.2f" % x] rounds the exact value
      of [x].

    After the properties that the specification states come properties of
    the rest of the module: the setters, [median], the loading of records
    and suites, a benchmark's own [load] and [dump], the ordering of a
    suite, the significance test, and the texts of durations, CPU lists
    and run lists. *)

From Stdlib Require Import ZArith QArith Qround Qabs Qreals Reals Lqa Lra Lia Ascii.
From stdpp Require Import gmap strings list fin_maps pretty sorting.

#[local] Set Warnings "-register-all".
#[local] Open Scope Z_scope.

(** ** Python values and exceptions *)

(** The values that [json.load] produces, which are also the values a
    caller can put in a list of samples.  [bool] is a subclass of [int] in
    Python: [isinstance(True, int)] holds and [True == 1]. *)
Inductive pyval : Type :=
| PNone
| PBool (b : bool)
| PInt (z : Z)
| PFloat (q : Q)
| PStr (s : string)
| PList (l : list pyval)
| PDict (d : gmap string pyval).

(** Exception classes raised by the embedded code.  [NonStringKey] is not a
    Python exception: it marks the one input of [_load_json] that leaves the
    model (see there). *)
Inductive exn : Type :=
| ValueError
| TypeError
| KeyError
| AttributeError
| IndexError
| ZeroDivisionError
| StatisticsError
| AssertionError
| NonStringKey.

Inductive result (A : Type) : Type :=
| Ok (a : A)
| Raise (e : exn).
Arguments Ok {A} a.
Arguments Raise {A} e.

Definition rbind {A B} (r : result A) (k : A → result B) : result B :=
  match r with
  | Ok a => k a
  | Raise e => Raise e
  end.

Declare Scope result_scope.
Delimit Scope result_scope with result.
Notation "x ← r ; k" := (rbind r (λ x, k))
  (at level 20, r at level 100, k at level 200, only parsing) : result_scope.
Notation "r ;; k" := (rbind r (λ _, k))
  (at level 100, k at level 200, right associativity, only parsing) : result_scope.

Definition is_ok {A} (r : result A) : Prop := ∃ a, r = Ok a.

(** [bool(v)]: Python truthiness. *)
Definition py_truthy (v : pyval) : bool :=
  match v with
  | PNone => false
  | PBool b => b
  | PInt z => negb (z =? 0)
  | PFloat q => negb (Qeq_bool q 0)
  | PStr s => negb (String.eqb s EmptyString)
  | PList l => match l with [] => false | _ => true end
  | PDict d => negb (bool_decide (d = ∅))
  end.

(** [isinstance(v, int)]. *)
Definition py_as_int (v : pyval) : option Z :=
  match v with
  | PBool b => Some (Z.b2z b)
  | PInt z => Some z
  | _ => None
  end.

(** [isinstance(v, (int, float))], with the numeric value. *)
Definition py_as_number (v : pyval) : option Q :=
  match v with
  | PBool b => Some (inject_Z (Z.b2z b))
  | PInt z => Some (inject_Z z)
  | PFloat q => Some q
  | _ => None
  end.

(** [v == n] for an integer constant [n]. *)
Definition py_eq_int (v : pyval) (n : Z) : bool :=
  match py_as_number v with
  | Some q => Qeq_bool q (inject_Z n)
  | None => false
  end.

(** ** Number formatter *)

Module Formatter.

(** [str(n)] for an [int]. *)
Definition py_str (n : Z) : string := pretty n.

(** [int.bit_length()]. *)
Definition bit_length (n : Z) : Z :=
  if n =? 0 then 0 else Z.log2 (Z.abs n) + 1.

(** The loop [while x >= 10: x //= 10; pow10 += 1], which leaves [pow10].
    [x] shrinks at every turn, so [Z.to_nat x] turns are enough. *)
Fixpoint pow10_loop (fuel : nat) (x pow10 : Z) : Z :=
  match fuel with
  | O => pow10
  | S fuel' =>
      if 10 <=? x then pow10_loop fuel' (x / 10) (pow10 + 1) else pow10
  end.

(** [not unit] for an optional string argument. *)
Definition str_falsy (u : option string) : bool :=
  match u with
  | None => true
  | Some s => String.eqb s EmptyString
  end.

Definition _format_number (number : Z) (unit units : option string) : string :=
  let plural := 1 <? Z.abs number in
  let text :=
    if (10000 <=? number) && (number mod 10 =? 0) then
      "10^" +:+ py_str (pow10_loop (Z.to_nat number) number 0)
    else if (8192 <? number) && (number mod 2 =? 0) then
      "2^" +:+ py_str (bit_length number - 1)
    else py_str number in
  if str_falsy unit then text
  else
    let unit := default EmptyString unit in
    if plural then
      let units := if str_falsy units then unit +:+ "s" else default EmptyString units in
      text +:+ " " +:+ units
    else text +:+ " " +:+ unit.

End Formatter.

(** ** Benchmark *)

Module Bench.

(** The attributes of a [Benchmark] object.  [_loops], [_inner_loops] and
    [_warmups] are only written by their property setters, which accept an
    [int] (or [None] for [inner_loops]) and nothing else, so they are typed.
    A run is stored as the tuple of the values given to [add_run]. *)
Record Benchmark : Type := mkBenchmark {
  _loops : Z;
  _inner_loops : option Z;
  _warmups : Z;
  _runs : list (list pyval);
  metadata : gmap string pyval;
  _samples : option (list Q);
  _median : option Q
}.

(** A method: from the object's state to an outcome and the state left. *)
Definition M (A : Type) : Type := Benchmark → result A * Benchmark.

Definition ret {A} (a : A) : M A := λ b, (Ok a, b).
Definition raise {A} (e : exn) : M A := λ b, (Raise e, b).
Definition bind {A B} (m : M A) (k : A → M B) : M B := λ b,
  match m b with
  | (Ok a, b') => k a b'
  | (Raise e, b') => (Raise e, b')
  end.
Definition get : M Benchmark := λ b, (Ok b, b).
Definition modify (f : Benchmark → Benchmark) : M unit := λ b, (Ok tt, f b).

Declare Scope method_scope.
Delimit Scope method_scope with method.
Notation "x ← m ; k" := (bind m (λ x, k))
  (at level 20, m at level 100, k at level 200, only parsing) : method_scope.
Notation "m ;; k" := (bind m (λ _, k))
  (at level 100, k at level 200, right associativity, only parsing) : method_scope.

Definition Qltb (x y : Q) : bool := negb (Qle_bool y x).

(** [isinstance(value, (int, float)) and value > 0]. *)
Definition sample_ok (value : pyval) : bool :=
  match py_as_number value with
  | Some q => Qltb 0 q
  | None => false
  end.

Definition with_stats (s : option (list Q)) (m : option Q) (b : Benchmark) : Benchmark :=
  mkBenchmark (_loops b) (_inner_loops b) (_warmups b) (_runs b) (metadata b) s m.

Definition with_runs (r : list (list pyval)) (b : Benchmark) : Benchmark :=
  mkBenchmark (_loops b) (_inner_loops b) (_warmups b) r (metadata b)
    (_samples b) (_median b).

Definition _clear_stats_cache : M unit := modify (with_stats None None).

(** The property setters. *)
Definition loops_setter (value : pyval) : M unit :=
  match py_as_int value with
  | Some z =>
      if 1 <=? z then
        (_clear_stats_cache ;;
         modify (λ b, mkBenchmark z (_inner_loops b) (_warmups b) (_runs b)
                        (metadata b) (_samples b) (_median b)))%method
      else raise ValueError
  | None => raise ValueError
  end.

Definition inner_loops_setter (value : pyval) : M unit :=
  let store (v : option Z) : M unit :=
    (_clear_stats_cache ;;
     modify (λ b, mkBenchmark (_loops b) v (_warmups b) (_runs b)
                    (metadata b) (_samples b) (_median b)))%method in
  match value with
  | PNone => store None
  | _ =>
      match py_as_int value with
      | Some z => if 1 <=? z then store (Some z) else raise ValueError
      | None => raise ValueError
      end
  end.

Definition warmups_setter (value : pyval) : M unit :=
  match py_as_int value with
  | Some z =>
      if 0 <=? z then
        (_clear_stats_cache ;;
         modify (λ b, mkBenchmark (_loops b) (_inner_loops b) z (_runs b)
                        (metadata b) (_samples b) (_median b)))%method
      else raise ValueError
  | None => raise ValueError
  end.

(** [str.strip()] on ASCII text: the characters [str.isspace] accepts. *)
Definition is_space (c : ascii) : bool :=
  let n := nat_of_ascii c in
  ((9 <=? n) && (n <=? 13) || (28 <=? n) && (n <=? 32))%nat.

Fixpoint lstrip (s : string) : string :=
  match s with
  | String c s' => if is_space c then lstrip s' else s
  | EmptyString => EmptyString
  end.

Fixpoint rstrip (s : string) : string :=
  match s with
  | String c s' =>
      match rstrip s' with
      | EmptyString => if is_space c then EmptyString else String c EmptyString
      | t => String c t
      end
  | EmptyString => EmptyString
  end.

Definition strip (s : string) : string := rstrip (lstrip s).

(** The [name] property: it lives in the metadata. *)
Definition name (b : Benchmark) : option pyval := metadata b !! "name".

Definition name_setter (value : pyval) : M unit :=
  match value with
  | PStr s =>
      let value := strip s in
      if String.eqb value EmptyString then raise TypeError
      else modify (λ b, mkBenchmark (_loops b) (_inner_loops b) (_warmups b)
                          (_runs b) (<["name" := PStr value]> (metadata b))
                          (_samples b) (_median b))
  | _ => raise TypeError
  end.

(** [Benchmark.__init__].  The attributes do not exist before the setters
    run; the state the setters start from is a placeholder of which nothing
    survives. *)
Definition blank : Benchmark := mkBenchmark 1 None 0 [] ∅ None None.

Definition __init__ (name loops inner_loops warmups : pyval)
    (metadata : option (gmap string pyval)) : result Benchmark :=
  let body : M unit :=
    (loops_setter loops ;;
     inner_loops_setter inner_loops ;;
     warmups_setter warmups ;;
     modify (with_runs []) ;;
     _clear_stats_cache ;;
     modify (λ b, mkBenchmark (_loops b) (_inner_loops b) (_warmups b)
                    (_runs b) (default ∅ metadata) (_samples b) (_median b)) ;;
     name_setter name)%method in
  match body blank with
  | (Ok _, b) => Ok b
  | (Raise e, _) => Raise e
  end.

(** The defaults of [__init__]'s keyword arguments. *)
Definition default_loops : pyval := PInt 1.
Definition default_inner_loops : pyval := PNone.
Definition default_warmups : pyval := PInt 1.

Definition add_run (samples : list pyval) : M unit :=
  (self ← get ;
   if match samples with [] => true | _ => false end
      || existsb (λ value, negb (sample_ok value)) samples
   then raise ValueError
   else if Z.of_nat (length samples) - _warmups self <? 1
   then raise ValueError
   else
     let run := samples in
     if match _runs self with
        | [] => false
        | first :: _ => negb (length run =? length first)%nat
        end
     then raise ValueError
     else
       _clear_stats_cache ;;
       modify (λ b, with_runs (_runs b ++ [run]) b))%method.

(** [add_run] on any value, as [_json_load] calls it on what the file
    holds.  A falsy value is refused by [not samples]; a non-empty [str] or
    [dict] iterates over strings, which are no numbers; a non-zero number is
    not iterable. *)
Definition add_run_any (samples : pyval) : M unit :=
  match samples with
  | PList l => add_run l
  | PStr _ | PDict _ | PNone => raise ValueError
  | PBool _ | PInt _ | PFloat _ =>
      if py_truthy samples then raise TypeError else raise ValueError
  end.

Definition get_nrun (b : Benchmark) : Z := Z.of_nat (length (_runs b)).

Definition get_runs (b : Benchmark) : list (list pyval) := _runs b.

Definition get_nsample (b : Benchmark) : Z :=
  let nrun := Z.of_nat (length (_runs b)) in
  if nrun =? 0 then 0
  else nrun * (Z.of_nat (length (default [] (head (_runs b)))) - _warmups b).

Definition get_loops : M Z :=
  (self ← get ;
   let loops := _loops self in
   if loops =? 0 then raise ValueError
   else
     match _inner_loops self with
     | Some inner => ret (loops * inner)
     | None => ret loops
     end)%method.

(** The slice [seq[start:]]. *)
Definition slice_from {A} (start : Z) (seq : list A) : list A :=
  if 0 <=? start then drop (Z.to_nat start) seq
  else drop (length seq - Z.to_nat (- start)) seq.

(** [sample / loops]. *)
Definition truediv (sample : pyval) (loops : Z) : result Q :=
  match py_as_number sample with
  | Some q => if loops =? 0 then Raise ZeroDivisionError
              else Ok (q / inject_Z loops)%Q
  | None => Raise TypeError
  end.

(** The body of a [for] loop that appends [f x] for every [x], stopping at
    the first exception. *)
Fixpoint collect {A B} (f : A → result B) (xs : list A) : result (list B) :=
  match xs with
  | [] => Ok []
  | x :: xs' => (y ← f x ; ys ← collect f xs' ; Ok (y :: ys))%result
  end.

Definition lift {A} (r : result A) : M A := λ b, (r, b).

Definition get_samples : M (list Q) :=
  (self ← get ;
   match _samples self with
   | Some samples => ret samples
   | None =>
       loops ← get_loops ;
       samples ← lift (collect (λ sample, truediv sample loops)
                         (concat (map (slice_from (_warmups self)) (_runs self)))) ;
       modify (λ b, with_stats (Some samples) (_median b) b) ;;
       ret samples
   end)%method.

Definition _get_raw_samples (b : Benchmark) : list pyval :=
  concat (map (slice_from (_warmups b)) (_runs b)).

(** [statistics.median]. *)
Definition Qle_rel (x y : Q) : Prop := Is_true (Qle_bool x y).

Definition statistics_median (data : list Q) : result Q :=
  let data := merge_sort Qle_rel data in
  let n := length data in
  if (n =? 0)%nat then Raise StatisticsError
  else if (n mod 2 =? 1)%nat then
    match data !! (n / 2)%nat with
    | Some x => Ok x
    | None => Raise IndexError
    end
  else
    let i := (n / 2)%nat in
    match data !! (i - 1)%nat, data !! i with
    | Some x, Some y => Ok ((x + y) / 2)%Q
    | _, _ => Raise IndexError
    end.

Definition median : M Q :=
  (self ← get ;
   match _median self with
   | Some m => ret m
   | None =>
       samples ← get_samples ;
       m ← lift (statistics_median samples) ;
       modify (λ b, with_stats (_samples b) (Some m) b) ;;
       if Qeq_bool m 0 then raise AssertionError else ret m
   end)%method.

(** [_get_worker_samples]. *)
Definition _get_worker_samples (self run_bench : Benchmark) : result (list pyval) :=
  match _runs run_bench with
  | [run] =>
      if negb (_loops run_bench =? _loops self) then Raise ValueError
      else if negb (bool_decide (_inner_loops run_bench = _inner_loops self))
      then Raise ValueError
      else if negb (_warmups run_bench =? _warmups self) then Raise ValueError
      else Ok run
  | _ => Raise ValueError
  end.

(** The values a [for] loop takes over [v]: the elements of a list, the
    characters of a string, the keys of a dict. *)
Definition py_iter (v : pyval) : result (list pyval) :=
  match v with
  | PList l => Ok l
  | PStr s => Ok ((λ c, PStr (String c EmptyString)) <$> String.list_ascii_of_string s)
  | PDict d => Ok (PStr <$> (map_to_list d).*1)
  | _ => Raise TypeError
  end.

Fixpoint for_each {A} (f : A → M unit) (xs : list A) : M unit :=
  match xs with
  | [] => ret tt
  | x :: xs' => (f x ;; for_each f xs')%method
  end.

(** [Benchmark._json_load].  [data.get] and [metadata.get] need dicts. *)
Definition _json_load (data : pyval) : result Benchmark :=
  match data with
  | PDict data =>
      let warmups := default (PInt 0) (data !! "warmups") in
      let loops := default (PInt 1) (data !! "loops") in
      let inner_loops := default PNone (data !! "inner_loops") in
      match data !! "metadata" with
      | Some (PDict metadata) =>
          let name := default PNone (metadata !! "name") in
          (bench ← __init__ name loops inner_loops warmups (Some metadata) ;
           match data !! "runs" with
           | None => Raise KeyError
           | Some runs =>
               runs ← py_iter runs ;
               match for_each add_run_any runs bench with
               | (Ok _, bench) => Ok bench
               | (Raise e, _) => Raise e
               end
           end)%result
      | _ => Raise AttributeError
      end
  | _ => Raise AttributeError
  end.

(** [Benchmark._as_json].  [self.loops] is an [int], never [None], so the
    guard [if self.loops is not None] always passes. *)
Definition _as_json (self : Benchmark) : gmap string pyval :=
  let data : gmap string pyval := {[ "runs" := PList (PList <$> _runs self) ]} in
  let data := if negb (_warmups self =? 0)
              then <["warmups" := PInt (_warmups self)]> data else data in
  let data := <["loops" := PInt (_loops self)]> data in
  let data := match _inner_loops self with
              | Some inner => <["inner_loops" := PInt inner]> data
              | None => data
              end in
  let data := if negb (bool_decide (metadata self = ∅))
              then <["metadata" := PDict (metadata self)]> data else data in
  data.

End Bench.

(** ** BenchmarkSuite and the file format *)

Module Suite.
Import Bench.

(** Format history: 2 supports several benchmarks per file, 1 is the first
    version. *)
Definition _JSON_VERSION : Z := 2.

(** A [BenchmarkSuite] is a [dict] from names to benchmarks with a
    [filename] attribute. *)
Record BenchmarkSuite : Type := mkSuite {
  filename : option string;
  items : gmap string Benchmark
}.

Definition empty_suite (filename : option string) : BenchmarkSuite :=
  mkSuite filename ∅.

Definition _add_benchmark (name : string) (benchmark : Benchmark)
    (self : BenchmarkSuite) : result BenchmarkSuite :=
  if bool_decide (is_Some (items self !! name)) then Raise ValueError
  else Ok (mkSuite (filename self) (<[name := benchmark]> (items self))).

(** [add_benchmark] files the benchmark under [benchmark.name], which the
    constructor made a string; another value would be a key that is no
    string. *)
Definition add_benchmark (benchmark : Benchmark) (self : BenchmarkSuite)
    : result BenchmarkSuite :=
  match name benchmark with
  | Some (PStr s) => _add_benchmark s benchmark self
  | _ => Raise NonStringKey
  end.

(** [needle in s] on strings. *)
Fixpoint str_contains (needle s : string) : bool :=
  String.prefix needle s ||
  match s with
  | String _ s' => str_contains needle s'
  | EmptyString => false
  end.

(** ['name' in container]. *)
Definition contains_name (container : pyval) : result bool :=
  match container with
  | PDict d => Ok (bool_decide (is_Some (d !! "name")))
  | PList l =>
      Ok (existsb (λ x, match x with PStr t => String.eqb t "name" | _ => false end) l)
  | PStr s => Ok (str_contains "name" s)
  | _ => Raise TypeError
  end.

(** The version-1 branch of [_load_json]: from the file's dict to the pair
    that [{name: bench_data}] holds.  [bench_data['name']] needs a dict with
    that key; a [dict] key must be hashable, which a list or dict is not. *)
Definition migrate_v1 (bench_file : gmap string pyval) : result (pyval * pyval) :=
  match bench_file !! "benchmark" with
  | None => Raise KeyError
  | Some (PDict bench_data) =>
      match bench_data !! "name" with
      | None => Raise KeyError
      | Some name_value =>
          let name := if py_truthy name_value then name_value
                      else PStr "benchmark" in
          match bench_data !! "metadata" with
          | None => Raise KeyError
          | Some metadata =>
              (present ← contains_name metadata ;
               bench_data ←
                 (if present then Ok bench_data
                  else match metadata with
                       | PDict md =>
                           Ok (<["metadata" := PDict (<["name" := name]> md)]> bench_data)
                       | _ => Raise TypeError
                       end) ;
               match name with
               | PList _ | PDict _ => Raise TypeError
               | _ => Ok (name, PDict bench_data)
               end)%result
          end
      end
  | Some _ => Raise TypeError
  end.

(** The loop over [benchmarks_json.items()].  A key that is no string only
    comes from a version-1 file whose ["name"] is a non-zero number; the
    suite would then hold a number as a key, which [gmap string _] cannot:
    the model answers [NonStringKey] there. *)
Fixpoint load_each (entries : list (pyval * pyval)) (suite : BenchmarkSuite)
    : result BenchmarkSuite :=
  match entries with
  | [] => Ok suite
  | (name, bench_data) :: rest =>
      (benchmark ← _json_load bench_data ;
       suite ← match name with
               | PStr s => _add_benchmark s benchmark suite
               | _ => Raise NonStringKey
               end ;
       load_each rest suite)%result
  end.

(** [BenchmarkSuite._load_json].  The entries of a version-2 file are taken
    in the order of [map_to_list]; the order only decides which exception is
    reported when several entries are bad. *)
Definition _load_json (filename : option string) (bench_file : pyval)
    : result BenchmarkSuite :=
  match bench_file with
  | PDict file =>
      let version := default PNone (file !! "version") in
      (benchmarks_json ←
         (if py_eq_int version _JSON_VERSION then
            match file !! "benchmarks" with
            | None => Raise KeyError
            | Some (PDict d) =>
                Ok ((λ entry, (PStr entry.1, entry.2)) <$> map_to_list d)
            | Some _ => Raise AttributeError
            end
          else if py_eq_int version 1 then
            entry ← migrate_v1 file ; Ok [entry]
          else Raise ValueError) ;
       suite ← load_each benchmarks_json (empty_suite filename) ;
       if bool_decide (items suite = ∅) then Raise ValueError else Ok suite)%result
  | _ => Raise AttributeError
  end.

(** The value that [dump] hands to [json.dump].  Writing it as text and
    reading the text back with [json.load] returns the same value (a tuple
    comes back as a list, which [_as_json] already anticipates). *)
Definition dump_data (self : BenchmarkSuite) : pyval :=
  let benchmarks_json : gmap string pyval := (λ b, PDict (_as_json b)) <$> items self in
  PDict (<["benchmarks" := PDict benchmarks_json]> {[ "version" := PInt _JSON_VERSION ]}).

End Suite.

(** ** Significance engine *)

Module Significance.

(** The table of two-tailed 95% critical values by degrees of freedom; a
    decimal literal stands for its decimal value. *)
Definition _T_DIST_95_CONF_LEVELS : list Q :=
  [0; 12.706; 4.303; 3.182; 2.776;
   2.571; 2.447; 2.365; 2.306; 2.262;
   2.228; 2.201; 2.179; 2.160; 2.145;
   2.131; 2.120; 2.110; 2.101; 2.093;
   2.086; 2.080; 2.074; 2.069; 2.064;
   2.060; 2.056; 2.052; 2.048; 2.045;
   2.042]%Q.

(** [seq[i]] on a list, with Python's negative indices. *)
Definition py_getitem {A} (seq : list A) (i : Z) : result A :=
  let j := if 0 <=? i then i else Z.of_nat (length seq) + i in
  if j <? 0 then Raise IndexError
  else match seq !! Z.to_nat j with
       | Some x => Ok x
       | None => Raise IndexError
       end.

(** [round(x)] in Python 3: to the nearest integer, a tie to the even one. *)
Definition py_round (x : Q) : Z :=
  let f := Qfloor x in
  match (x - inject_Z f ?= 1 # 2)%Q with
  | Lt => f
  | Gt => f + 1
  | Eq => if Z.even f then f else f + 1
  end.

Definition _tdist95conf_level (df : Q) : result Q :=
  let df := py_round df in
  let highest_table_df := Z.of_nat (length _T_DIST_95_CONF_LEVELS) in
  if 200 <=? df then Ok 1.960%Q
  else if 100 <=? df then Ok 1.984%Q
  else if 80 <=? df then Ok 1.990%Q
  else if 60 <=? df then Ok 2.000%Q
  else if 50 <=? df then Ok 2.009%Q
  else if 40 <=? df then Ok 2.021%Q
  else if highest_table_df <=? df then
    py_getitem _T_DIST_95_CONF_LEVELS (highest_table_df - 1)
  else py_getitem _T_DIST_95_CONF_LEVELS df.

(** [math.fsum]: the exact sum. *)
Definition fsum (xs : list R) : R := foldr Rplus 0%R xs.

(** [statistics.mean]. *)
Definition statistics_mean (xs : list R) : result R :=
  match xs with
  | [] => Raise StatisticsError
  | _ => Ok (fsum xs / INR (length xs))%R
  end.

(** [x / y] on floats. *)
Definition truediv (x y : R) : result R :=
  if Req_dec_T y 0%R then Raise ZeroDivisionError else Ok (x / y)%R.

(** [math.sqrt]. *)
Definition math_sqrt (x : R) : result R :=
  if Rlt_dec x 0%R then Raise ValueError else Ok (sqrt x).

Definition _pooled_sample_variance (sample1 sample2 : list R) : result R :=
  let deg_freedom := Z.of_nat (length sample1) + Z.of_nat (length sample2) - 2 in
  (mean1 ← statistics_mean sample1 ;
   let squares1 := (λ x, (x - mean1) ^ 2)%R <$> sample1 in
   mean2 ← statistics_mean sample2 ;
   let squares2 := (λ x, (x - mean2) ^ 2)%R <$> sample2 in
   truediv (fsum squares1 + fsum squares2)%R (IZR deg_freedom))%result.

Definition _tscore (sample1 sample2 : list R) : result R :=
  if negb (length sample1 =? length sample2)%nat then Raise ValueError
  else
    (variance ← _pooled_sample_variance sample1 sample2 ;
     error ← truediv variance (INR (length sample1)) ;
     mean1 ← statistics_mean sample1 ;
     mean2 ← statistics_mean sample2 ;
     root ← math_sqrt (error * 2)%R ;
     truediv (mean1 - mean2)%R root)%result.

Definition is_significant (sample1 sample2 : list R) : result (bool * R) :=
  let deg_freedom := Z.of_nat (length sample1) + Z.of_nat (length sample2) - 2 in
  (critical_value ← _tdist95conf_level (inject_Z deg_freedom) ;
   t_score ← _tscore sample1 sample2 ;
   Ok (if Rge_dec (Rabs t_score) (Q2R critical_value) then true else false,
       t_score))%result.

End Significance.

(** ** What the specification says of a benchmark *)

Module BenchSpec.
Import Bench.

(** The benchmarks a caller can build: the public constructor, then calls
    of [add_run] (accepted or refused) and of the readers that fill the
    caches. *)
Inductive built : Benchmark → Prop :=
| built_init name loops inner_loops warmups metadata b :
    __init__ name loops inner_loops warmups metadata = Ok b → built b
| built_add_run b samples outcome b' :
    built b → add_run samples b = (outcome, b') → built b'
| built_get_samples b outcome b' :
    built b → get_samples b = (outcome, b') → built b'
| built_median b outcome b' :
    built b → median b = (outcome, b') → built b'.

(** The numeric value of a raw sample. *)
Definition number_value (raw : pyval) : Q := default 0%Q (py_as_number raw).

(** The derived samples in the specification's words: every run with its
    first [warmups] entries dropped and each remaining raw value divided by
    [loops * inner_loops] (an absent [inner_loops] counting as 1),
    concatenated in run order. *)
Definition normalized (loops : Z) (inner_loops : option Z) (warmups : Z)
    (runs : list (list pyval)) : list Q :=
  let divisor := loops * default 1 inner_loops in
  concat ((λ run, (λ raw, (number_value raw / inject_Z divisor)%Q)
                  <$> drop (Z.to_nat warmups) run) <$> runs).

(** The length that all runs share: that of the first. *)
Definition run_length (b : Benchmark) : Z :=
  Z.of_nat (length (default [] (head (_runs b)))).

(** A candidate run that [add_run] must refuse. *)
Definition refused (self : Benchmark) (samples : list pyval) : Prop :=
  samples = [] ∨
  (∃ value, value ∈ samples ∧
            ¬ ∃ q, py_as_number value = Some q ∧ (0 < q)%Q) ∨
  Z.of_nat (length samples) - _warmups self < 1 ∨
  (∃ first, head (_runs self) = Some first ∧ length samples ≠ length first).

(** The object after an accepted [add_run]: the run appended, the cached
    samples and median cleared. *)
Definition appended (self : Benchmark) (samples : list pyval) : Benchmark :=
  mkBenchmark (_loops self) (_inner_loops self) (_warmups self)
    (_runs self ++ [samples]) (metadata self) None None.

(** What the constructor and [add_run] establish and the readers keep: the
    invariants of the data model, with a cache of samples that, when
    filled, holds the derived samples. *)
Record well_formed (b : Benchmark) : Prop := {
  wf_loops : 1 ≤ _loops b;
  wf_inner_loops : ∀ inner, _inner_loops b = Some inner → 1 ≤ inner;
  wf_warmups : 0 ≤ _warmups b;
  wf_runs :
    Forall (λ run, Forall (λ value, sample_ok value = true) run ∧
                   _warmups b < Z.of_nat (length run) ∧
                   Z.of_nat (length run) = run_length b) (_runs b);
  wf_samples :
    ∀ samples, _samples b = Some samples →
      samples = normalized (_loops b) (_inner_loops b) (_warmups b) (_runs b);
  wf_name :
    ∃ s, metadata b !! "name" = Some (PStr s) ∧ strip s = s ∧ s ≠ EmptyString
}.

(** Equality field for field, apart from the caches. *)
Definition same_fields (b1 b2 : Benchmark) : Prop :=
  _runs b1 = _runs b2 ∧ _loops b1 = _loops b2 ∧
  _inner_loops b1 = _inner_loops b2 ∧ _warmups b1 = _warmups b2 ∧
  metadata b1 = metadata b2.

End BenchSpec.

(** ** The file format in the specification's examples *)

Module SuiteSpec.
Import Bench Suite.

(** [file["version"] == n], for the file's dict. *)
Definition version_is (file : gmap string pyval) (n : Z) : Prop :=
  py_eq_int (default PNone (file !! "version")) n = true.

(** The specification's version-1 example,
    [{"version":1,"benchmark":{"runs":[[1,2,3]],"metadata":{}}}]. *)
Definition example_v1 : pyval :=
  PDict (<["benchmark" :=
            PDict (<["metadata" := PDict ∅]>
                     {[ "runs" := PList [PList [PInt 1; PInt 2; PInt 3]] ]})]>
           {[ "version" := PInt 1 ]}).

(** The same document with the ["name"] field that version-1 records
    carry, holding the empty string. *)
Definition example_v1_named : pyval :=
  PDict (<["benchmark" :=
            PDict (<["name" := PStr EmptyString]>
                     (<["metadata" := PDict ∅]>
                        {[ "runs" := PList [PList [PInt 1; PInt 2; PInt 3]] ]}))]>
           {[ "version" := PInt 1 ]}).

(** The version-2 shape a version-1 record with the string name [name] and
    the metadata [md] is migrated to: one entry, under the name or
    ["benchmark"] if the name is empty, with that name put in the metadata
    if they have none. *)
Definition migrated_name (name : string) : string :=
  if String.eqb name EmptyString then "benchmark" else name.

Definition migrated_record (name : string) (md record : gmap string pyval)
    : gmap string pyval :=
  if bool_decide (is_Some (md !! "name")) then record
  else <["metadata" := PDict (<["name" := PStr (migrated_name name)]> md)]> record.

Definition migrated_file (name : string) (md record : gmap string pyval)
    : pyval :=
  PDict (<["benchmarks" :=
            PDict {[ migrated_name name := PDict (migrated_record name md record) ]}]>
           {[ "version" := PInt 2 ]}).

End SuiteSpec.

(** ** The significance test as the specification words it *)

Module SignificanceSpec.
Import Significance.

Definition mean (xs : list R) : R := (fsum xs / INR (length xs))%R.

(** The sum of squared deviations of a sequence from its own mean. *)
Definition squared_deviations (xs : list R) : R :=
  fsum ((λ x, (x - mean xs) ^ 2)%R <$> xs).

Definition pooled_sample_variance (a b : list R) : R :=
  ((squared_deviations a + squared_deviations b)
   / (INR (length a) + INR (length b) - 2))%R.

Definition t_score (a b : list R) : R :=
  ((mean a - mean b)
   / sqrt (2 * pooled_sample_variance a b / INR (length a)))%R.

(** The critical value by ranges of the rounded degrees of freedom [d]:
    fixed values from 40 on, the table's last entry from the table's end
    (31) on, the table's entry at index [d] below. *)
Definition critical_value_by_range (d : Z) : result Q :=
  if 200 <=? d then Ok 1.960%Q
  else if 100 <=? d then Ok 1.984%Q
  else if 80 <=? d then Ok 1.990%Q
  else if 60 <=? d then Ok 2.000%Q
  else if 50 <=? d then Ok 2.009%Q
  else if 40 <=? d then Ok 2.021%Q
  else if 31 <=? d then Ok 2.042%Q
  else py_getitem _T_DIST_95_CONF_LEVELS d.

End SignificanceSpec.

(** * The rest of the module *)

(** ** More of the benchmark's invariants, and benchmarks to try them on *)

Module BenchMore.
Import Bench BenchSpec.

(** A cached median is the median of the derived samples. *)
Definition median_cache_ok (b : Benchmark) : Prop :=
  ∀ m, _median b = Some m →
    statistics_median
      (normalized (_loops b) (_inner_loops b) (_warmups b) (_runs b)) = Ok m.

(** [Benchmark("bench", loops=2, inner_loops=3, warmups=1)] after
    [add_run([5, 12, 18])] and [add_run([7, 6, 24])]. *)
Definition two_runs : Benchmark :=
  mkBenchmark 2 (Some 3) 1 [[PInt 5; PInt 12; PInt 18]; [PInt 7; PInt 6; PInt 24]]
    {[ "name" := PStr "bench" ]} None None.

(** [Benchmark("bench")] with no run. *)
Definition no_run : Benchmark :=
  mkBenchmark 1 None 1 [] {[ "name" := PStr "bench" ]} None None.

End BenchMore.

(** ** The rest of the suite, and a benchmark's own [load] and [dump] *)

Module SuiteMore.
Import Bench Suite.

(** The sort key [attrgetter('name')], when it is a string. *)
Definition name_key (b : Benchmark) : option string :=
  match name b with
  | Some (PStr s) => Some s
  | _ => None
  end.

(** The order of [sorted] on such keys: strings compare character by
    character. *)
Definition by_name (b1 b2 : Benchmark) : Prop :=
  match name_key b1, name_key b2 with
  | Some s1, Some s2 => Is_true (String.leb s1 s2)
  | _, _ => True
  end.

#[global] Instance by_name_dec (b1 b2 : Benchmark) : Decision (by_name b1 b2).
Proof. unfold by_name. destruct (name_key b1), (name_key b2); apply _. Defined.

(** [BenchmarkSuite.get_benchmarks]: [sorted(self.values(),
    key=attrgetter('name'))].  With at most one benchmark nothing is
    compared.  The name setter only stores strings; names that are not all
    strings are outside the model ([NonStringKey]).  Python keeps
    benchmarks of the same name in the order they were inserted, which a
    [gmap] does not record. *)
Definition get_benchmarks (self : BenchmarkSuite) : result (list Benchmark) :=
  let values := (map_to_list (items self)).*2 in
  if forallb (λ b, bool_decide (is_Some (name_key b))) values
  then Ok (merge_sort by_name values)
  else match values with
       | [] | [_] => Ok values
       | _ => Raise NonStringKey
       end.

(** [Benchmark.load] and [Benchmark.loads], from the value that
    [json.load] read: the suite must hold exactly one benchmark. *)
Definition load (filename : option string) (bench_file : pyval)
    : result Benchmark :=
  (suite ← _load_json filename bench_file ;
   benchmarks ← get_benchmarks suite ;
   match benchmarks with
   | [benchmark] => Ok benchmark
   | _ => Raise ValueError
   end)%result.

Definition loads (bench_file : pyval) : result Benchmark :=
  load None bench_file.

(** [Benchmark.dump], up to the value handed to [json.dump]: a suite of
    its own with this benchmark only. *)
Definition dump (self : Benchmark) : result pyval :=
  (suite ← add_benchmark self (empty_suite None) ;
   Ok (dump_data suite))%result.

End SuiteMore.

(** ** A change of unit *)

Module SignificanceMore.

(** A change of unit and origin of a measurement: [x ↦ k * x + c]. *)
Definition rescale (k c x : R) : R := (k * x + c)%R.

End SignificanceMore.

(** ** Durations *)

Module Timedelta.
Import Significance.

Definition _TIMEDELTA_UNITS : list string := ["sec"; "ms"; "us"; "ns"].

(** [range(2, -9, -1)]. *)
Definition exponents : list Z := [2; 1; 0; -1; -2; -3; -4; -5; -6; -7; -8].

(** The loop [for i in ...: if ref_value >= 10.0 ** i: break] with its
    [else: i = -9], which leaves [i]. *)
Fixpoint find_exponent (candidates : list Z) (ref_value : Q) : Z :=
  match candidates with
  | [] => -9
  | i :: rest =>
      if Qle_bool (10 ^ i) ref_value then i else find_exponent rest ref_value
  end.

(** [digits] filled with zeros on the left up to [width] characters. *)
Definition zero_pad (width : nat) (digits : string) : string :=
  String.concat EmptyString (replicate (width - String.length digits) "0")
  +:+ digits.

(** ["%.<precision>f" % x]: [x] rounded to [precision] decimals, a tie to
    the even digit, in positional notation; the sign is that of [x]. *)
Definition format_fixed (precision : Z) (x : Q) : string :=
  let scaled := py_round (Qabs x * inject_Z (10 ^ precision)) in
  let whole := scaled / 10 ^ precision in
  let decimals := scaled mod 10 ^ precision in
  let text :=
    if precision =? 0 then pretty whole
    else pretty whole +:+ "." +:+ zero_pad (Z.to_nat precision) (pretty decimals) in
  if Qle_bool 0 x then text else "-" +:+ text.

Definition _format_timedeltas (values : list Q) : result (list string) :=
  match values with
  | [] => Raise IndexError
  | first :: _ =>
      let ref_value := Qabs first in
      let i := find_exponent exponents ref_value in
      let precision := 2 - i mod 3 in
      let k := if i <? 0 then - (i / 3) else 0 in
      let factor := 10 ^ (k * 3) in
      (unit ← py_getitem _TIMEDELTA_UNITS k ;
       Ok ((λ value, format_fixed precision (value * inject_Z factor)
                     +:+ " " +:+ unit) <$> values))%result
  end.

Definition _format_timedelta (value : Q) : result string :=
  (texts ← _format_timedeltas [value] ; py_getitem texts 0)%result.

End Timedelta.

(** ** Lists of runs and of CPUs *)

Module Parsing.
Import Bench Formatter.

(** [s.split(sep)] for a separator of one character. *)
Fixpoint split_on (sep : ascii) (s : string) : list string :=
  match s with
  | EmptyString => [EmptyString]
  | String c s' =>
      if Ascii.eqb c sep then EmptyString :: split_on sep s'
      else match split_on sep s' with
           | part :: parts => String c part :: parts
           | [] => [String c EmptyString]
           end
  end.

(** [s.split(sep, 1)] when [sep in s], and [None] when it is not. *)
Fixpoint split_once (sep : ascii) (s : string) : option (string * string) :=
  match s with
  | EmptyString => None
  | String c s' =>
      if Ascii.eqb c sep then Some (EmptyString, s')
      else match split_once sep s' with
           | Some (before, after) => Some (String c before, after)
           | None => None
           end
  end.

Definition digit_value (c : ascii) : option Z :=
  let n := nat_of_ascii c in
  if ((48 <=? n) && (n <=? 57))%nat then Some (Z.of_nat n - 48) else None.

(** The digits of an [int] literal, where one underscore may stand between
    two digits (Python 3.6 and later). *)
Fixpoint parse_digits (acc : Z) (s : string) : option Z :=
  match s with
  | EmptyString => Some acc
  | String c s' =>
      if Ascii.eqb c "_" then
        match s' with
        | String d _ =>
            match digit_value d with
            | Some _ => parse_digits acc s'
            | None => None
            end
        | EmptyString => None
        end
      else
        match digit_value c with
        | Some d => parse_digits (acc * 10 + d) s'
        | None => None
        end
  end.

(** [int(s)] on ASCII text: white space around, a sign, decimal digits. *)
Definition py_int (s : string) : result Z :=
  let s := strip s in
  let '(negative, body) :=
    match s with
    | String "-" rest => (true, rest)
    | String "+" rest => (false, rest)
    | _ => (false, s)
    end in
  match body with
  | String c _ =>
      match digit_value c, parse_digits 0 body with
      | Some _, Some n => Ok (if negative then - n else n)
      | _, _ => Raise ValueError
      end
  | EmptyString => Raise ValueError
  end.

(** [list(range(start, stop))]. *)
Definition py_range (start stop : Z) : list Z :=
  (λ i, start + Z.of_nat i) <$> seq 0 (Z.to_nat (stop - start)).

(** The body of the loop over the parts of the list: a part is a number or
    two numbers around a dash. *)
Definition parse_part (part : string) : result (list Z) :=
  let part := strip part in
  match split_once "-" part with
  | Some (part0, part1) =>
      (first ← py_int part0 ;
       last ← py_int part1 ;
       Ok (py_range first (last + 1)))%result
  | None => (number ← py_int part ; Ok [number])%result
  end.

Fixpoint parse_parts (parts : list string) : result (list Z) :=
  match parts with
  | [] => Ok []
  | part :: rest =>
      (numbers ← parse_part part ;
       others ← parse_parts rest ;
       Ok (numbers ++ others))%result
  end.

(** [_parse_run_list].  The [ValueError] of [int] is caught and raised
    again as a [ValueError] with another message. *)
Definition _parse_run_list (run_list : string) : result (list Z) :=
  let run_list := strip run_list in
  (runs ← parse_parts (split_on "," run_list) ;
   match runs with
   | [] => Raise ValueError
   | run :: others =>
       if foldr Z.min run others <? 1 then Raise ValueError
       else Ok ((λ run, run - 1) <$> runs)
   end)%result.

(** [_parse_cpu_list], which returns [None] for a blank text. *)
Definition _parse_cpu_list (cpu_list : string) : result (option (list Z)) :=
  let cpu_list := strip cpu_list in
  if String.eqb cpu_list EmptyString then Ok None
  else (cpus ← parse_parts (split_on "," cpu_list) ; Ok (Some cpus))%result.

(** [str(x)] where [x] is an [int] or [None]. *)
Definition str_or_none (x : option Z) : string :=
  match x with
  | Some z => py_str z
  | None => "None"
  end.

(** The two ways [_format_cpu_list] closes a range, after the loop and in
    it: [first-last], or [last] alone when they are the same. *)
Definition close_range (parts : list string) (first last : option Z)
    : list string :=
  if bool_decide (first ≠ last)
  then parts ++ [str_or_none first +:+ "-" +:+ str_or_none last]
  else parts ++ [str_or_none last].

(** The loop of [_format_cpu_list] over the sorted CPUs, which leaves
    [parts], [first] and [last].  [last + 1] needs a number. *)
Fixpoint cpu_loop (cpus : list Z) (parts : list string) (first last : option Z)
    : result (list string * option Z * option Z) :=
  match cpus with
  | [] => Ok (parts, first, last)
  | cpu :: rest =>
      match first, last with
      | None, _ => cpu_loop rest parts (Some cpu) (Some cpu)
      | Some _, None => Raise TypeError
      | Some _, Some l =>
          if negb (cpu =? l + 1)
          then cpu_loop rest (close_range parts first last) (Some cpu) (Some cpu)
          else cpu_loop rest parts first (Some cpu)
      end
  end.

Definition _format_cpu_list (cpus : list Z) : result string :=
  let cpus := merge_sort Z.le cpus in
  match cpu_loop cpus [] None None with
  | Ok (parts, first, last) =>
      Ok (String.concat "," (close_range parts first last))
  | Raise e => Raise e
  end.

End Parsing.

Module ParsingSpec.
Import Parsing.

(** Every character of [s] satisfies [P]. *)
Fixpoint all_chars (P : ascii → bool) (s : string) : bool :=
  match s with
  | EmptyString => true
  | String c s' => P c && all_chars P s'
  end.

Definition is_digit (c : ascii) : bool :=
  match digit_value c with
  | Some _ => true
  | None => false
  end.

(** The characters of the texts that [_format_cpu_list] writes for numbers
    that are not negative. *)
Definition digit_or_dash (c : ascii) : bool := is_digit c || Ascii.eqb c "-".

Definition cpu_list_char (c : ascii) : bool :=
  digit_or_dash c || Ascii.eqb c ",".

(** A part that the writer can append: it is not empty and holds digits and
    dashes only. *)
Definition cpu_part (part : string) : bool :=
  negb (String.eqb part EmptyString) && all_chars digit_or_dash part.

End ParsingSpec.

(** * Properties *)

(** ** Number formatter *)

Section FormatterProperties.
Import Formatter.

(** The loop counts the decimal digits after the first: started at [x ≥ 1]
    with enough fuel it adds the [j] with [10^j ≤ x < 10^(j+1)]. *)
Lemma pow10_loop_log (fuel : nat) : ∀ x pow10 : Z,
  1 ≤ x → (Z.to_nat x ≤ fuel)%nat →
  ∃ j, 0 ≤ j ∧ 10 ^ j ≤ x < 10 ^ (j + 1) ∧ pow10_loop fuel x pow10 = pow10 + j.
Proof.
  induction fuel as [|fuel IH]; intros x pow10 Hx Hfuel; [lia|].
  cbn [pow10_loop]. destruct (Z.leb_spec 10 x) as [Hge|Hlt].
  - assert (Hdiv : 1 ≤ x / 10) by (apply Z.div_le_lower_bound; lia).
    assert (Hlt : x / 10 < x) by (apply Z.div_lt; lia).
    destruct (IH (x / 10) (pow10 + 1) Hdiv ltac:(lia)) as (j & Hj & [Hlo Hhi] & Heq).
    exists (j + 1). split; [lia|]. split; [|lia].
    pose proof (Z.div_mod x 10 ltac:(lia)) as Hdm.
    pose proof (Z.mod_pos_bound x 10 ltac:(lia)) as Hmod.
    rewrite !Z.pow_add_r in * by lia. change (10 ^ 1) with 10 in *. lia.
  - exists 0. change (10 ^ 0) with 1. change (10 ^ (0 + 1)) with 10. lia.
Qed.

(** The two branches below the test for a power of ten. *)
Lemma format_text_pow2 (n : Z) :
  8192 < n → n mod 2 = 0 →
  ∃ k, 0 ≤ k ∧ 2 ^ k ≤ n < 2 ^ (k + 1) ∧
       (if (8192 <? n) && (n mod 2 =? 0)
        then "2^" +:+ py_str (bit_length n - 1) else py_str n)
       = "2^" +:+ py_str k.
Proof.
  intros H2 Hm2.
  destruct (Z.ltb_spec 8192 n) as [_|?]; [|lia].
  destruct (Z.eqb_spec (n mod 2) 0) as [_|?]; [|lia]. cbn [andb].
  exists (Z.log2 n). split; [apply Z.log2_nonneg|]. split.
  - rewrite Z.add_1_r. apply Z.log2_spec. lia.
  - unfold bit_length. destruct (Z.eqb_spec n 0) as [?|_]; [lia|].
    rewrite Z.abs_eq by lia. do 2 f_equal. lia.
Qed.

Lemma format_text_plain (n : Z) :
  ¬ (8192 < n ∧ n mod 2 = 0) →
  (if (8192 <? n) && (n mod 2 =? 0)
   then "2^" +:+ py_str (bit_length n - 1) else py_str n) = py_str n.
Proof.
  intros Hno.
  destruct (Z.ltb_spec 8192 n) as [?|?];
    destruct (Z.eqb_spec (n mod 2) 0) as [?|?]; cbn [andb]; try reflexivity.
  exfalso. apply Hno. split; assumption.
Qed.

(** C9. [format_number(16384)] is ["2^14"], [format_number(10000)] is
    ["10^4"], [format_number(7)] is ["7"].  With no unit, an integer that is
    a multiple of 10 and at least 10000 is rendered ["10^k"]; otherwise one
    that is a multiple of 2 and above 8192 is rendered ["2^k"]; any other is
    rendered as the plain number.  The exponent [k] is the integer logarithm
    of [n], rounded down. *)
Theorem format_number_abbreviates :
  _format_number 16384 None None = "2^14" ∧
  _format_number 10000 None None = "10^4" ∧
  _format_number 7 None None = "7" ∧
  ∀ n : Z,
    (10000 ≤ n → n mod 10 = 0 →
       ∃ k, 0 ≤ k ∧ 10 ^ k ≤ n < 10 ^ (k + 1) ∧
            _format_number n None None = "10^" +:+ py_str k) ∧
    (¬ (10000 ≤ n ∧ n mod 10 = 0) → 8192 < n → n mod 2 = 0 →
       ∃ k, 0 ≤ k ∧ 2 ^ k ≤ n < 2 ^ (k + 1) ∧
            _format_number n None None = "2^" +:+ py_str k) ∧
    (¬ (10000 ≤ n ∧ n mod 10 = 0) → ¬ (8192 < n ∧ n mod 2 = 0) →
       _format_number n None None = py_str n).
Proof.
  split; [by vm_compute|]. split; [by vm_compute|]. split; [by vm_compute|].
  intros n. unfold _format_number. cbn [str_falsy].
  destruct (Z.leb_spec 10000 n) as [H10|H10];
    destruct (Z.eqb_spec (n mod 10) 0) as [Hm10|Hm10]; cbn [andb];
    (split; [|split]); try (intros; exfalso; lia).
  1: { intros _ _.
       destruct (pow10_loop_log (Z.to_nat n) n 0) as (k & Hk & Hb & ->); [lia..|].
       exists k. by rewrite Z.add_0_l. }
  all: first [ intros _ H2 Hm2; by apply format_text_pow2
             | intros _ Hno; by apply format_text_plain ].
Qed.

Lemma format_number_abbreviates_witness :
  (∃ k, 0 ≤ k ∧ 10 ^ k ≤ 20000 < 10 ^ (k + 1) ∧
        _format_number 20000 None None = "10^" +:+ py_str k) ∧
  (∃ k, 0 ≤ k ∧ 2 ^ k ≤ 8194 < 2 ^ (k + 1) ∧
        _format_number 8194 None None = "2^" +:+ py_str k) ∧
  _format_number 8193 None None = py_str 8193.
Proof.
  destruct format_number_abbreviates as (_ & _ & _ & H).
  split; [|split].
  - destruct (H 20000) as (H1 & _ & _). apply H1; [lia|reflexivity].
  - destruct (H 8194) as (_ & H2 & _). apply H2; [|lia|reflexivity].
    intros [? _]. lia.
  - destruct (H 8193) as (_ & _ & H3). apply H3.
    + intros [? _]. lia.
    + intros [_ Hm]. vm_compute in Hm. discriminate.
Defined.

End FormatterProperties.

(** ** Significance engine *)

Section CriticalValueProperties.
Import Significance SignificanceSpec.

Lemma py_round_nearest (x : Q) :
  (Qabs (x - inject_Z (py_round x)) <= 1 # 2)%Q.
Proof.
  apply Qabs_Qle_condition. unfold py_round.
  pose proof (Qfloor_le x) as Hlo. pose proof (Qlt_floor x) as Hhi.
  rewrite inject_Z_plus in Hhi. change (inject_Z 1) with 1%Q in Hhi.
  destruct (x - inject_Z (Qfloor x) ?= 1 # 2)%Q eqn:Hcmp;
    [apply Qeq_alt in Hcmp; destruct (Z.even (Qfloor x))
    |apply Qlt_alt in Hcmp
    |apply Qgt_alt in Hcmp];
    rewrite ?inject_Z_plus; change (inject_Z 1) with 1%Q;
    generalize dependent (inject_Z (Qfloor x)); intros g; intros; Lqa.lra.
Qed.

Lemma py_round_int (z : Z) : py_round (inject_Z z) = z.
Proof.
  unfold py_round. rewrite Qfloor_Z.
  assert (Hcmp : (inject_Z z - inject_Z z ?= 1 # 2)%Q = Lt).
  { apply (proj1 (Qlt_alt _ _)). generalize (inject_Z z). intros g. Lqa.lra. }
  by rewrite Hcmp.
Qed.

Lemma tdist95conf_level_unfold (df : Q) :
  _tdist95conf_level df = critical_value_by_range (py_round df).
Proof.
  unfold _tdist95conf_level, critical_value_by_range.
  change (Z.of_nat (length _T_DIST_95_CONF_LEVELS)) with 31.
  change (py_getitem _T_DIST_95_CONF_LEVELS (31 - 1)) with (Ok 2.042%Q).
  reflexivity.
Qed.

Lemma tdist95conf_level_in_table (df : Q) :
  0 ≤ py_round df < 31 →
  ∃ v, _T_DIST_95_CONF_LEVELS !! Z.to_nat (py_round df) = Some v ∧
       _tdist95conf_level df = Ok v.
Proof.
  intros [Hlo Hhi]. rewrite tdist95conf_level_unfold.
  set (d := py_round df) in *.
  assert (Hlen : (Z.to_nat d < length _T_DIST_95_CONF_LEVELS)%nat)
    by (change (length _T_DIST_95_CONF_LEVELS) with 31%nat; lia).
  destruct (lookup_lt_is_Some_2 _ _ Hlen) as [v Hv].
  exists v. split; [exact Hv|]. unfold critical_value_by_range.
  repeat (match goal with
          | |- context [?a <=? d] =>
              destruct (Z.leb_spec a d) as [?|_]; [lia|]
          end).
  unfold py_getitem.
  destruct (Z.leb_spec 0 d) as [_|?]; [|lia].
  destruct (Z.ltb_spec d 0) as [?|_]; [lia|]. by rewrite Hv.
Qed.

(** From zero degrees of freedom on there always is a critical value. *)
Lemma tdist95conf_level_defined (d : Z) :
  0 ≤ d → ∃ cv, _tdist95conf_level (inject_Z d) = Ok cv.
Proof.
  intros Hd. destruct (Z.lt_ge_cases d 31) as [Hlt|Hge].
  - destruct (tdist95conf_level_in_table (inject_Z d)) as (v & _ & Hv).
    + rewrite py_round_int. lia.
    + by exists v.
  - rewrite tdist95conf_level_unfold, py_round_int.
    unfold critical_value_by_range.
    repeat (match goal with
            | |- context [?a <=? d] => destruct (Z.leb_spec a d) as [?|?]
            end; [by eexists|]).
    lia.
Qed.



End CriticalValueProperties.

Section TScoreProperties.
Import Significance SignificanceSpec.

Lemma fsum_squares_nonneg (m : R) (xs : list R) :
  (0 <= fsum ((λ x, (x - m) ^ 2) <$> xs))%R.
Proof.
  induction xs as [|x xs IH]; [cbn; lra|].
  rewrite fmap_cons. unfold fsum in *. cbn [foldr].
  pose proof (pow2_ge_0 (x - m)). lra.
Qed.

Lemma statistics_mean_nonempty (xs : list R) :
  xs ≠ [] → statistics_mean xs = Ok (mean xs).
Proof. by destruct xs. Qed.

Lemma truediv_nonzero (x y : R) : y ≠ 0%R → truediv x y = Ok (x / y)%R.
Proof. intros Hy. unfold truediv. by destruct (Req_dec_T y 0). Qed.

Lemma truediv_zero (x : R) : truediv x 0 = Raise ZeroDivisionError.
Proof. unfold truediv. by destruct (Req_dec_T 0 0). Qed.

Lemma math_sqrt_nonneg (x : R) : (0 <= x)%R → math_sqrt x = Ok (sqrt x).
Proof. intros Hx. unfold math_sqrt. destruct (Rlt_dec x 0); [lra|done]. Qed.

(** With one sample on each side there is no degree of freedom left, and
    the pooled variance divides by it. *)
Lemma pooled_variance_singletons (x y : R) :
  _pooled_sample_variance [x] [y] = Raise ZeroDivisionError.
Proof. unfold _pooled_sample_variance. cbn. apply truediv_zero. Qed.

Lemma tscore_singletons (x y : R) : _tscore [x] [y] = Raise ZeroDivisionError.
Proof. unfold _tscore. cbn [length Nat.eqb negb]. by rewrite pooled_variance_singletons. Qed.

Lemma is_significant_singletons (x y : R) :
  is_significant [x] [y] = Raise ZeroDivisionError.
Proof.
  unfold is_significant. cbn [length].
  destruct (tdist95conf_level_defined (Z.of_nat 1 + Z.of_nat 1 - 2)) as [cv ->];
    [lia|].
  cbn [rbind]. by rewrite tscore_singletons.
Qed.

(** The pooled variance the code computes is the specification's, as soon
    as a degree of freedom is left. *)
Lemma pooled_variance_value (a b : list R) :
  a ≠ [] → b ≠ [] → (3 ≤ length a + length b)%nat →
  _pooled_sample_variance a b = Ok (pooled_sample_variance a b).
Proof.
  intros Ha Hb Hlen. unfold _pooled_sample_variance.
  rewrite !statistics_mean_nonempty by done. cbn [rbind].
  rewrite truediv_nonzero.
  - unfold pooled_sample_variance, squared_deviations.
    by rewrite minus_IZR, plus_IZR, <- !INR_IZR_INZ.
  - apply not_0_IZR. lia.
Qed.

Lemma squared_deviations_nonneg (xs : list R) : (0 <= squared_deviations xs)%R.
Proof. apply fsum_squares_nonneg. Qed.

Lemma pooled_variance_nonneg (a b : list R) :
  (3 ≤ length a + length b)%nat → (0 <= pooled_sample_variance a b)%R.
Proof.
  intros Hlen. unfold pooled_sample_variance.
  pose proof (squared_deviations_nonneg a). pose proof (squared_deviations_nonneg b).
  apply Rmult_le_pos; [lra|]. apply Rlt_le, Rinv_0_lt_compat.
  rewrite <- plus_INR. change 2%R with (INR 2). rewrite <- minus_INR by lia.
  apply lt_0_INR. lia.
Qed.

Lemma tscore_value (a b : list R) :
  length a = length b → (2 ≤ length a)%nat →
  pooled_sample_variance a b ≠ 0%R →
  _tscore a b = Ok (t_score a b).
Proof.
  intros Hlen Hn Hvar.
  assert (Ha : a ≠ []) by (intros ->; cbn in Hn; lia).
  assert (Hb : b ≠ []) by (intros ->; cbn in Hlen; lia).
  assert (Hpos : (0 < INR (length a))%R) by (apply lt_0_INR; lia).
  pose proof (pooled_variance_nonneg a b ltac:(lia)) as Hge.
  unfold _tscore. rewrite (proj2 (Nat.eqb_eq _ _) Hlen). cbn [negb].
  rewrite pooled_variance_value by (done || lia). cbn [rbind].
  rewrite truediv_nonzero by lra. cbn [rbind].
  rewrite !statistics_mean_nonempty by done. cbn [rbind].
  set (error := (pooled_sample_variance a b / INR (length a))%R).
  assert (Herr : (0 < error)%R).
  { unfold error. apply Rdiv_lt_0_compat; lra. }
  rewrite math_sqrt_nonneg by lra. cbn [rbind].
  rewrite truediv_nonzero.
  - unfold t_score. do 3 f_equal. unfold error. field. lra.
  - intros Hroot. apply sqrt_eq_0 in Hroot; lra.
Qed.

(** When the pooled variance is zero, as for samples that are all equal,
    the standard error is zero and the last division raises. *)
Lemma tscore_zero_variance (a b : list R) :
  length a = length b → (2 ≤ length a)%nat →
  pooled_sample_variance a b = 0%R →
  _tscore a b = Raise ZeroDivisionError.
Proof.
  intros Hlen Hn Hvar.
  assert (Ha : a ≠ []) by (intros ->; cbn in Hn; lia).
  assert (Hb : b ≠ []) by (intros ->; cbn in Hlen; lia).
  assert (Hpos : (0 < INR (length a))%R) by (apply lt_0_INR; lia).
  unfold _tscore. rewrite (proj2 (Nat.eqb_eq _ _) Hlen). cbn [negb].
  rewrite pooled_variance_value by (done || lia). cbn [rbind].
  rewrite truediv_nonzero by lra. cbn [rbind].
  rewrite !statistics_mean_nonempty by done. cbn [rbind].
  rewrite Hvar. replace (0 / INR (length a) * 2)%R with 0%R by (field; lra).
  rewrite math_sqrt_nonneg by lra. cbn [rbind].
  rewrite sqrt_0. apply truediv_zero.
Qed.




(** C10. For any two sequences of one sample each, which are non-empty and
    of equal length, [pooled_sample_variance], [t_score] and
    [is_significant] divide by zero: the degrees of freedom [1 + 1 - 2] are
    zero, and the division of [pooled_sample_variance] raises
    [ZeroDivisionError], so that none of the three returns. *)
Theorem single_samples_divide_by_zero (x y : R) :
  length [x] = length [y] ∧ [x] ≠ [] ∧ [y] ≠ [] ∧
  Z.of_nat (length [x]) + Z.of_nat (length [y]) - 2 = 0 ∧
  _pooled_sample_variance [x] [y] = Raise ZeroDivisionError ∧
  _tscore [x] [y] = Raise ZeroDivisionError ∧
  is_significant [x] [y] = Raise ZeroDivisionError.
Proof.
  repeat split; try done.
  - apply pooled_variance_singletons.
  - apply tscore_singletons.
  - apply is_significant_singletons.
Qed.

End TScoreProperties.

(** ** Benchmark *)

Section BenchmarkProperties.
Import Bench BenchSpec.

Lemma sample_ok_spec (value : pyval) :
  sample_ok value = true ↔ ∃ q, py_as_number value = Some q ∧ (0 < q)%Q.
Proof.
  unfold sample_ok, Qltb. destruct (py_as_number value) as [q|].
  - rewrite negb_true_iff, <- not_true_iff_false, Qle_bool_iff. split.
    + intros Hq. exists q. split; [done|]. by apply Qnot_le_lt.
    + intros (q' & [= <-] & Hq). by apply Qlt_not_le.
  - split; [done|]. by intros (q & ? & _).
Qed.

Lemma existsb_not_sample_ok (samples : list pyval) :
  existsb (λ value, negb (sample_ok value)) samples = true ↔
  ∃ value, value ∈ samples ∧ ¬ ∃ q, py_as_number value = Some q ∧ (0 < q)%Q.
Proof.
  rewrite existsb_exists. split.
  - intros (v & Hin & Hv). exists v. split; [by apply list_elem_of_In|].
    rewrite <- sample_ok_spec. by destruct (sample_ok v).
  - intros (v & Hin & Hv). exists v. split; [by apply list_elem_of_In|].
    rewrite <- sample_ok_spec in Hv. by destruct (sample_ok v).
Qed.

(** [add_run] either refuses the run and leaves the object as it was, or
    appends it and clears the caches. *)
Lemma add_run_cases (self : Benchmark) (samples : list pyval) :
  (refused self samples ∧ add_run samples self = (Raise ValueError, self)) ∨
  (¬ refused self samples ∧
   add_run samples self = (Ok tt, appended self samples)).
Proof.
  unfold add_run, bind, get, raise, refused.
  destruct samples as [|value samples]; [left; split; [by left|done]|].
  cbn [orb].
  destruct (existsb _ (value :: samples)) eqn:Hany.
  { left. split; [|done]. right; left. by apply existsb_not_sample_ok. }
  destruct (Z.ltb_spec (Z.of_nat (length (value :: samples)) - _warmups self) 1)
    as [Hshort|Hlong].
  { left. split; [|done]. by right; right; left. }
  assert (Hnum : ¬ ∃ v, v ∈ value :: samples ∧
                   ¬ ∃ q, py_as_number v = Some q ∧ (0 < q)%Q).
  { rewrite <- existsb_not_sample_ok, Hany. done. }
  destruct (_runs self) as [|first rest] eqn:Hruns.
  - right. split; [|by destruct self; cbn in *; subst].
    intros [?|[?|[?|(first & ? & _)]]]; [done|done|lia|done].
  - destruct (Nat.eqb_spec (length (value :: samples)) (length first))
      as [Heq|Hne]; cbn [negb].
    + right. split; [|by destruct self; cbn in *; subst].
      intros [?|[?|[?|(first' & [= <-] & ?)]]]; [done|done|lia|done].
    + left. split; [|done]. right; right; right. by exists first.
Qed.

(** C4. [add_run] fails with [ValueError] exactly when the list is empty,
    or some element is not a number above zero, or fewer than one sample is
    left after the warmups, or earlier runs exist and the length differs
    from theirs.  When it fails the object, and so its stored runs, is
    unchanged; when it succeeds the run is appended and the cached samples
    and median are cleared. *)
Theorem add_run_validates (self : Benchmark) (samples : list pyval) :
  ((add_run samples self).1 = Raise ValueError ↔ refused self samples) ∧
  (refused self samples → add_run samples self = (Raise ValueError, self)) ∧
  (¬ refused self samples →
   add_run samples self = (Ok tt, appended self samples) ∧
   _runs (appended self samples) = _runs self ++ [samples] ∧
   _samples (appended self samples) = None ∧
   _median (appended self samples) = None).
Proof.
  destruct (add_run_cases self samples) as [[Href Hrun]|[Hacc Hrun]];
    rewrite Hrun; cbn [fst].
  - split; [done|]. split; [done|]. intros Hno. by destruct Hno.
  - split; [split; [done|intros ?; by destruct Hacc]|].
    split; [intros ?; by destruct Hacc|]. done.
Qed.

Lemma add_run_validates_witness :
  add_run [PFloat 1.5; PInt 0] blank = (Raise ValueError, blank) ∧
  add_run [PFloat 1.5; PInt 2] blank
    = (Ok tt, appended blank [PFloat 1.5; PInt 2]).
Proof.
  split.
  - apply (add_run_validates blank [PFloat 1.5; PInt 0]).
    right; left. exists (PInt 0). split; [set_solver|].
    intros (q & [= <-] & Hq). by vm_compute in Hq.
  - apply (add_run_validates blank [PFloat 1.5; PInt 2]).
    intros [?|[(v & Hv & Hno)|[Hlen|(first & ? & _)]]]; [done| |by vm_compute in Hlen|done].
    apply Hno. apply elem_of_cons in Hv as [->|Hv];
      [|apply list_elem_of_singleton in Hv as ->]; eexists; (split; [reflexivity|done]).
Defined.

(** The keys of the record [_as_json] builds. *)
Lemma as_json_loops (self : Benchmark) :
  _as_json self !! "loops" = Some (PInt (_loops self)).
Proof.
  unfold _as_json.
  destruct (negb (_warmups self =? 0)), (_inner_loops self),
    (negb (bool_decide (metadata self = ∅))); by simplify_map_eq.
Qed.

Lemma as_json_runs (self : Benchmark) :
  _as_json self !! "runs" = Some (PList (PList <$> _runs self)).
Proof.
  unfold _as_json.
  destruct (negb (_warmups self =? 0)), (_inner_loops self),
    (negb (bool_decide (metadata self = ∅))); by simplify_map_eq.
Qed.

Lemma as_json_warmups (self : Benchmark) :
  _as_json self !! "warmups" =
    if decide (_warmups self = 0) then None else Some (PInt (_warmups self)).
Proof.
  unfold _as_json. destruct (Z.eqb_spec (_warmups self) 0) as [H0|H0];
    cbn [negb]; rewrite ?decide_True, ?decide_False by done;
    destruct (_inner_loops self), (negb (bool_decide (metadata self = ∅)));
    by simplify_map_eq.
Qed.

Lemma as_json_inner_loops (self : Benchmark) :
  _as_json self !! "inner_loops" = PInt <$> _inner_loops self.
Proof.
  unfold _as_json.
  destruct (negb (_warmups self =? 0)), (_inner_loops self),
    (negb (bool_decide (metadata self = ∅))); by simplify_map_eq.
Qed.

Lemma as_json_metadata (self : Benchmark) :
  _as_json self !! "metadata" =
    if decide (metadata self = ∅) then None else Some (PDict (metadata self)).
Proof.
  unfold _as_json. destruct (decide (metadata self = ∅)) as [H0|H0].
  - rewrite bool_decide_eq_true_2 by done. cbn [negb].
    destruct (negb (_warmups self =? 0)), (_inner_loops self); by simplify_map_eq.
  - rewrite bool_decide_eq_false_2 by done. cbn [negb].
    destruct (negb (_warmups self =? 0)), (_inner_loops self); by simplify_map_eq.
Qed.

(** C6, as it is stated: the record omits ["loops"] when [loops] is 1.  The
    record of a benchmark constructed with [loops=1] has the key. *)
Lemma as_json_writes_loops_one :
  ∃ b, __init__ (PStr "bench") (PInt 1) PNone (PInt 0) None = Ok b ∧
       _loops b = 1 ∧ _as_json b !! "loops" = Some (PInt 1).
Proof. eexists. split; [reflexivity|]. split; [reflexivity|]. apply as_json_loops. Qed.

(** C6, amended.  The record always has ["runs"] and ["loops"], whatever
    [loops] is; it omits ["warmups"] when it is 0, ["inner_loops"] when it
    is absent and ["metadata"] when the mapping is empty, and has them
    otherwise. *)
Theorem as_json_keys (self : Benchmark) :
  _as_json self !! "runs" = Some (PList (PList <$> _runs self)) ∧
  _as_json self !! "loops" = Some (PInt (_loops self)) ∧
  (_warmups self = 0 → _as_json self !! "warmups" = None) ∧
  (_warmups self ≠ 0 → _as_json self !! "warmups" = Some (PInt (_warmups self))) ∧
  (_inner_loops self = None → _as_json self !! "inner_loops" = None) ∧
  (∀ inner, _inner_loops self = Some inner →
            _as_json self !! "inner_loops" = Some (PInt inner)) ∧
  (metadata self = ∅ → _as_json self !! "metadata" = None) ∧
  (metadata self ≠ ∅ →
   _as_json self !! "metadata" = Some (PDict (metadata self))).
Proof.
  split; [apply as_json_runs|]. split; [apply as_json_loops|].
  rewrite as_json_warmups, as_json_inner_loops, as_json_metadata.
  repeat split.
  - intros H0. by rewrite decide_True.
  - intros H0. by rewrite decide_False.
  - by intros ->.
  - by intros inner ->.
  - intros H0. by rewrite decide_True.
  - intros H0. by rewrite decide_False.
Qed.

Lemma as_json_keys_witness :
  let b := mkBenchmark 2 (Some 3) 1 [] {[ "name" := PStr "b" ]} None None in
  (_as_json blank !! "warmups" = None ∧
   _as_json blank !! "inner_loops" = None ∧
   _as_json blank !! "metadata" = None) ∧
  (_as_json b !! "warmups" = Some (PInt 1) ∧
   _as_json b !! "inner_loops" = Some (PInt 3) ∧
   _as_json b !! "metadata" = Some (PDict {[ "name" := PStr "b" ]})).
Proof.
  intros b. split.
  - pose proof (as_json_keys blank) as (_ & _ & Hw & _ & Hi & _ & Hm & _).
    split; [by apply Hw|]. split; [by apply Hi|]. by apply Hm.
  - pose proof (as_json_keys b) as (_ & _ & _ & Hw & _ & Hi & _ & Hm).
    split; [by apply Hw|]. split; [by apply Hi|]. apply Hm.
    apply insert_non_empty.
Defined.

(** *** The constructor *)

Lemma rstrip_cons (c : ascii) (s : string) :
  rstrip (String c s) =
    match rstrip s with
    | EmptyString => if is_space c then EmptyString else String c EmptyString
    | t => String c t
    end.
Proof. reflexivity. Qed.

Lemma rstrip_idemp (s : string) : rstrip (rstrip s) = rstrip s.
Proof.
  induction s as [|c s IH]; [done|]. rewrite rstrip_cons.
  destruct (rstrip s) as [|d t] eqn:Ht.
  - destruct (is_space c) eqn:Hc; [done|]. cbn [rstrip]. by rewrite Hc.
  - by rewrite rstrip_cons, IH.
Qed.

Lemma lstrip_head (s : string) :
  lstrip s = EmptyString ∨ ∃ c t, lstrip s = String c t ∧ is_space c = false.
Proof.
  induction s as [|c s IH]; [by left|]. cbn [lstrip].
  destruct (is_space c) eqn:Hc; [done|]. right. by exists c, s.
Qed.

Lemma strip_head (s : string) :
  strip s = EmptyString ∨ ∃ c t, strip s = String c t ∧ is_space c = false.
Proof.
  unfold strip. destruct (lstrip_head s) as [->|(c & t & -> & Hc)]; [by left|].
  right. cbn [rstrip]. destruct (rstrip t); [rewrite Hc|]; by eexists _, _.
Qed.

Lemma strip_idemp (s : string) : strip (strip s) = strip s.
Proof.
  destruct (strip_head s) as [->|(c & t & Hs & Hc)]; [done|].
  unfold strip at 1. rewrite Hs. cbn [lstrip]. rewrite Hc, <- Hs.
  apply rstrip_idemp.
Qed.

Lemma init_inv name loops inner_loops warmups md b :
  __init__ name loops inner_loops warmups md = Ok b →
  ∃ L I W s,
    py_as_int loops = Some L ∧ 1 ≤ L ∧
    (∀ inner, I = Some inner → 1 ≤ inner) ∧
    py_as_int warmups = Some W ∧ 0 ≤ W ∧
    name = PStr s ∧ strip s ≠ EmptyString ∧
    b = mkBenchmark L I W [] (<["name" := PStr (strip s)]> (default ∅ md))
          None None.
Proof.
  unfold __init__, loops_setter, inner_loops_setter, warmups_setter,
    name_setter, _clear_stats_cache, bind, modify, raise, with_stats,
    with_runs, blank.
  intros H.
  destruct (py_as_int loops) as [L|] eqn:HL; [|done].
  destruct (Z.leb_spec 1 L) as [HL1|]; [|done]. cbn in H.
  destruct inner_loops as [|bi|zi| | | |]; cbn in H; try done.
  all: repeat match type of H with
       | context [if ?c then _ else _] => destruct c eqn:?; cbn in H; try done
       | context [match py_as_int ?v with _ => _ end] =>
           destruct (py_as_int v) eqn:?; cbn in H; try done
       end.
  all: destruct name as [| | | |s| |]; cbn in H; try done.
  all: destruct (String.eqb_spec (strip s) EmptyString) as [|Hs]; cbn in H; [done|].
  all: injection H as <-.
  all: eexists _, _, _, s; repeat split; try done; try lia.
  all: intros inner [= <-]; lia.
Qed.

(** *** The invariants hold of every benchmark that was built *)

Lemma accepted_inv (self : Benchmark) (samples : list pyval) :
  ¬ refused self samples →
  Forall (λ value, sample_ok value = true) samples ∧
  _warmups self < Z.of_nat (length samples) ∧
  ∀ first, head (_runs self) = Some first → length samples = length first.
Proof.
  intros Hacc. split; [|split].
  - apply Forall_forall. intros value Hin.
    destruct (sample_ok value) eqn:Hok; [done|]. exfalso. apply Hacc.
    right; left. exists value. split; [done|].
    rewrite <- sample_ok_spec, Hok. done.
  - destruct (Z.lt_ge_cases (_warmups self) (Z.of_nat (length samples)));
      [done|]. exfalso. apply Hacc. right; right; left. lia.
  - intros first Hfirst.
    destruct (decide (length samples = length first)); [done|].
    exfalso. apply Hacc. right; right; right. by exists first.
Qed.

Lemma well_formed_init name loops inner_loops warmups md b :
  __init__ name loops inner_loops warmups md = Ok b → well_formed b.
Proof.
  intros (L & I & W & s & _ & HL & HI & _ & HW & _ & Hs & ->)%init_inv.
  split; cbn; try done.
  exists (strip s). by rewrite lookup_insert_eq, strip_idemp.
Qed.

Lemma well_formed_appended (self : Benchmark) (samples : list pyval) :
  well_formed self → ¬ refused self samples →
  well_formed (appended self samples).
Proof.
  intros [HL HI HW Hruns _ Hname] (Hok & Hlen & Hfirst)%accepted_inv.
  split; cbn; try done.
  apply Forall_app. split.
  - apply Forall_forall. intros run Hin.
    destruct (proj1 (Forall_forall _ _) Hruns run Hin) as (? & ? & Hrun).
    split; [done|]. split; [done|]. rewrite Hrun. unfold run_length. cbn.
    destruct (_runs self); [by apply elem_of_nil in Hin|done].
  - apply Forall_singleton. split; [done|]. split; [done|].
    unfold run_length. cbn. destruct (_runs self) as [|first rest]; [done|].
    cbn. by rewrite (Hfirst first).
Qed.

Lemma well_formed_same_fields (b b' : Benchmark) :
  well_formed b → same_fields b b' →
  (∀ samples, _samples b' = Some samples →
     samples = normalized (_loops b) (_inner_loops b) (_warmups b) (_runs b)) →
  well_formed b'.
Proof.
  intros [HL HI HW Hruns _ Hname] (Er & El & Ei & Ew & Em) Hcache.
  split; rewrite <- ?Er, <- ?El, <- ?Ei, <- ?Ew, <- ?Em; try done.
  unfold run_length. by rewrite <- Er.
Qed.

Lemma collect_truediv (loops : Z) (raws : list pyval) :
  loops ≠ 0 → Forall (λ value, sample_ok value = true) raws →
  collect (λ sample, truediv sample loops) raws
  = Ok ((λ raw, (number_value raw / inject_Z loops)%Q) <$> raws).
Proof.
  intros Hloops. induction 1 as [|raw raws Hraw _ IH]; [done|].
  cbn [collect]. rewrite IH. unfold truediv, number_value.
  apply sample_ok_spec in Hraw as (q & Hq & _). rewrite Hq.
  destruct (Z.eqb_spec loops 0); [done|]. cbn. by rewrite Hq.
Qed.

Lemma fmap_concat_drop {A B} (f : A → B) (n : nat) (runs : list (list A)) :
  f <$> concat (drop n <$> runs) = concat ((λ run, f <$> drop n run) <$> runs).
Proof.
  induction runs as [|run runs IH]; [done|].
  cbn. by rewrite fmap_app, IH.
Qed.

Lemma slice_from_nonneg {A} (start : Z) (seq : list A) :
  0 ≤ start → slice_from start seq = drop (Z.to_nat start) seq.
Proof. intros H. unfold slice_from. by destruct (Z.leb_spec 0 start); [|lia]. Qed.

Lemma raw_samples_ok (b : Benchmark) :
  well_formed b →
  map (slice_from (_warmups b)) (_runs b) = drop (Z.to_nat (_warmups b)) <$> _runs b ∧
  Forall (λ value, sample_ok value = true)
    (concat (drop (Z.to_nat (_warmups b)) <$> _runs b)).
Proof.
  intros [_ _ HW Hruns _ _]. split.
  - apply map_ext. intros run. by apply slice_from_nonneg.
  - apply Forall_concat, Forall_fmap.
    eapply Forall_impl; [exact Hruns|]. cbn. intros run (Hok & _).
    by apply Forall_drop.
Qed.

(** [get_samples] on a well-formed benchmark returns the derived samples
    and leaves them in the cache. *)
Lemma get_samples_well_formed (b : Benchmark) :
  well_formed b →
  let samples := normalized (_loops b) (_inner_loops b) (_warmups b) (_runs b) in
  ∃ b', get_samples b = (Ok samples, b') ∧ same_fields b b' ∧
        _samples b' = Some samples ∧ _median b' = _median b.
Proof.
  intros Hwf samples. pose proof Hwf as [HL HI HW Hruns Hcache _].
  unfold get_samples, bind, get, ret.
  destruct (_samples b) as [cached|] eqn:Hs.
  { pose proof (Hcache cached eq_refl) as ->. exists b. by repeat split. }
  destruct (raw_samples_ok b Hwf) as [Hslice Hok].
  assert (Hloops : get_loops b =
            (Ok (_loops b * default 1 (_inner_loops b)), b)).
  { unfold get_loops, bind, get, ret, raise.
    destruct (Z.eqb_spec (_loops b) 0); [lia|].
    destruct (_inner_loops b); cbn [default]; [done|]. by rewrite Z.mul_1_r. }
  rewrite Hloops. unfold lift, modify.
  rewrite Hslice, collect_truediv, fmap_concat_drop; [| |done].
  - eexists. split; [reflexivity|]. by repeat split.
  - destruct (_inner_loops b) as [inner|] eqn:Hi; cbn; [|lia].
    specialize (HI inner eq_refl). nia.
Qed.

Lemma median_well_formed (b : Benchmark) outcome b' :
  well_formed b → median b = (outcome, b') → well_formed b'.
Proof.
  intros Hwf. unfold median, bind, get, ret.
  destruct (_median b) as [m|]; [by intros [= _ <-]|].
  destruct (get_samples_well_formed b Hwf) as (b1 & -> & Hsame & Hs1 & _).
  assert (Hwf1 : ∀ m, well_formed (with_stats (_samples b1) m b1)).
  { intros m. apply (well_formed_same_fields b); [done| |].
    - destruct Hsame as (? & ? & ? & ? & ?). by repeat split.
    - cbn. rewrite Hs1. by intros ? [= <-]. }
  unfold lift, modify, raise.
  destruct (statistics_median _) as [m|e].
  - destruct (Qeq_bool m 0); intros [= _ <-]; apply Hwf1.
  - intros [= _ <-]. destruct b1. apply (Hwf1 _median0).
Qed.

Lemma built_well_formed (b : Benchmark) : built b → well_formed b.
Proof.
  induction 1 as [name loops inner warmups md b Hinit
                 |b samples outcome b' _ IH Hrun
                 |b outcome b' _ IH Hget
                 |b outcome b' _ IH Hmed].
  - by eapply well_formed_init.
  - destruct (add_run_cases b samples) as [[_ Hr]|[Hacc Hr]];
      rewrite Hr in Hrun; injection Hrun as _ <-; [done|].
    by apply well_formed_appended.
  - destruct (get_samples_well_formed b IH) as (b1 & Hb1 & Hsame & Hs1 & _).
    rewrite Hb1 in Hget. injection Hget as _ <-.
    apply (well_formed_same_fields b); [done..|].
    rewrite Hs1. by intros ? [= <-].
  - by eapply median_well_formed.
Qed.

(** *** The derived samples *)

Lemma normalized_length (loops : Z) (inner : option Z) (warmups n : Z)
    (runs : list (list pyval)) :
  0 ≤ warmups →
  Forall (λ run, warmups < Z.of_nat (length run) ∧ Z.of_nat (length run) = n) runs →
  Z.of_nat (length (normalized loops inner warmups runs))
  = Z.of_nat (length runs) * (n - warmups).
Proof.
  intros HW. unfold normalized.
  induction 1 as [|run runs [Hlt Hn] _ IH]; [done|].
  cbn [fmap list_fmap concat length]. rewrite length_app, Nat2Z.inj_add.
  cbn [fmap list_fmap] in IH. rewrite IH, length_fmap, length_drop. lia.
Qed.



(** *** Reading back what [_as_json] wrote *)

Lemma init_ok (L : Z) (I : option Z) (W : Z) (s : string)
    (md : gmap string pyval) :
  1 ≤ L → (∀ inner, I = Some inner → 1 ≤ inner) → 0 ≤ W →
  strip s = s → s ≠ EmptyString → md !! "name" = Some (PStr s) →
  __init__ (PStr s) (PInt L) (default PNone (PInt <$> I)) (PInt W) (Some md)
  = Ok (mkBenchmark L I W [] md None None).
Proof.
  intros HL HI HW Hs Hne Hname.
  unfold __init__, loops_setter, inner_loops_setter, warmups_setter,
    name_setter, _clear_stats_cache, bind, modify, raise, with_stats,
    with_runs, blank. cbn [py_as_int].
  destruct (Z.leb_spec 1 L); [|lia]. cbn.
  assert (Hname' : <["name" := PStr (strip s)]> md = md)
    by (rewrite Hs; by apply insert_id).
  destruct I as [inner|]; cbn.
  - specialize (HI inner eq_refl). destruct (Z.leb_spec 1 inner); [|lia]. cbn.
    destruct (Z.leb_spec 0 W); [|lia]. cbn.
    rewrite Hs. destruct (String.eqb_spec s EmptyString); [done|]. cbn.
    by rewrite <- Hs, Hname'.
  - destruct (Z.leb_spec 0 W); [|lia]. cbn.
    rewrite Hs. destruct (String.eqb_spec s EmptyString); [done|]. cbn.
    by rewrite <- Hs, Hname'.
Qed.

(** Replaying runs that [add_run] accepted once, in the same order and
    under the same [warmups], is accepted again. *)
Lemma replay_runs (runs : list (list pyval)) : ∀ b0 : Benchmark,
  _samples b0 = None → _median b0 = None → 0 ≤ _warmups b0 →
  (∃ n, Forall (λ run, Forall (λ value, sample_ok value = true) run ∧
                       _warmups b0 < Z.of_nat (length run) ∧
                       Z.of_nat (length run) = n) (_runs b0 ++ runs)) →
  for_each add_run_any (PList <$> runs) b0
  = (Ok tt, with_runs (_runs b0 ++ runs) b0).
Proof.
  induction runs as [|run runs IH]; intros b0 Hs Hm HW [n Hall].
  { cbn. unfold ret, with_runs. rewrite app_nil_r. by destruct b0. }
  cbn [fmap list_fmap for_each add_run_any]. unfold bind.
  pose proof Hall as Hall'.
  rewrite Forall_app, Forall_cons in Hall'.
  destruct Hall' as (Hold & (Hok & Hlen & Hn) & _).
  destruct (add_run_cases b0 run) as [[Href _]|[_ ->]].
  { exfalso. destruct Href as [->|[Hbad|[Hshort|(first & Hfirst & Hne)]]].
    - cbn in Hlen. lia.
    - apply existsb_not_sample_ok in Hbad.
      apply existsb_exists in Hbad as (v & Hin & Hv).
      rewrite Forall_forall in Hok.
      rewrite (Hok v) in Hv; [done|by apply list_elem_of_In].
    - lia.
    - destruct (_runs b0) as [|first' rest]; [done|].
      injection Hfirst as ->. apply Forall_cons in Hold as [(_ & _ & Hf) _].
      lia. }
  rewrite IH; cbn; try done.
  - unfold with_runs, appended. cbn. by rewrite <- app_assoc, Hs, Hm.
  - exists n. by rewrite <- app_assoc.
Qed.

Lemma json_load_as_json (b : Benchmark) :
  well_formed b →
  _json_load (PDict (_as_json b)) = Ok (with_stats None None b).
Proof.
  intros [HL HI HW Hruns _ (s & Hname & Hs & Hne)].
  unfold _json_load.
  rewrite as_json_warmups, as_json_loops, as_json_inner_loops,
    as_json_metadata, as_json_runs.
  rewrite decide_False by (intros Hmd; by rewrite Hmd in Hname).
  rewrite Hname.
  replace (default (PInt 0)
             (if decide (_warmups b = 0) then None else Some (PInt (_warmups b))))
    with (PInt (_warmups b)) by (case_decide as H0; [by rewrite H0|done]).
  cbn [default]. unfold Datatypes.id. rewrite init_ok by done. cbn [rbind Bench.py_iter].
  rewrite replay_runs; cbn; try done.
  exists (run_length b).
  eapply Forall_impl; [exact Hruns|]. by intros run (? & ? & ?).
Qed.

End BenchmarkProperties.

(** ** BenchmarkSuite and the file format *)

Section SuiteProperties.
Import Bench BenchSpec Suite SuiteSpec.

Lemma load_each_dumped (m : gmap string Benchmark)
    (entries : list (string * pyval)) : ∀ acc : BenchmarkSuite,
  NoDup entries.*1 →
  (∀ k v, (k, v) ∈ entries →
     ∃ b, m !! k = Some b ∧ well_formed b ∧ v = PDict (_as_json b)) →
  (∀ k, k ∈ entries.*1 → items acc !! k = None) →
  ∃ suite',
    load_each ((λ entry, (PStr entry.1, entry.2)) <$> entries) acc = Ok suite' ∧
    filename suite' = filename acc ∧
    ∀ k, items suite' !! k =
           if decide (k ∈ entries.*1) then with_stats None None <$> m !! k
           else items acc !! k.
Proof.
  induction entries as [|[k v] entries IH]; intros acc Hnodup Hall Hfresh.
  { exists acc. by repeat split. }
  cbn [fmap list_fmap fst] in *. apply NoDup_cons in Hnodup as [Hk Hnodup].
  destruct (Hall k v) as (b & Hb & Hwf & ->); [by left|].
  cbn [load_each fst snd]. rewrite json_load_as_json by done. cbn [rbind].
  unfold _add_benchmark. rewrite (Hfresh k) by (by left).
  rewrite bool_decide_eq_false_2 by (by intros [? ?]). cbn [rbind].
  set (acc' := mkSuite (filename acc)
                 (<[k := with_stats None None b]> (items acc))).
  destruct (IH acc' Hnodup) as (suite' & Hload & Hfile & Hitems).
  - intros k' v' Hin. apply Hall. by right.
  - intros k' Hin. cbn. rewrite lookup_insert_ne; [|by intros ->].
    apply Hfresh. by right.
  - exists suite'. split; [done|]. split; [done|]. intros j.
    rewrite Hitems. destruct (decide (j ∈ entries.*1)) as [Hj|Hj].
    + rewrite decide_True; [done|by right].
    + cbn. destruct (decide (j = k)) as [->|Hjk].
      * rewrite decide_True by (by left). by rewrite lookup_insert_eq, Hb.
      * rewrite decide_False by (rewrite elem_of_cons; tauto).
        by rewrite lookup_insert_ne.
Qed.

(** Loading what [dump] wrote gives back every benchmark, caches apart. *)
Lemma load_dumped (suite : BenchmarkSuite) (fname : option string) :
  items suite ≠ ∅ →
  (∀ name b, items suite !! name = Some b → well_formed b) →
  _load_json fname (dump_data suite)
  = Ok (mkSuite fname (with_stats None None <$> items suite)).
Proof.
  intros Hne Hwf. unfold _load_json, dump_data.
  rewrite lookup_insert_ne, lookup_singleton_eq by done.
  cbn [default]. unfold Datatypes.id.
  change (py_eq_int (PInt _JSON_VERSION) _JSON_VERSION) with true. cbn iota.
  rewrite lookup_insert_eq.
  set (d := (λ b, PDict (_as_json b)) <$> items suite).
  destruct (load_each_dumped (items suite) (map_to_list d) (empty_suite fname))
    as (suite' & Hload & Hfile & Hitems).
  - apply NoDup_fst_map_to_list.
  - intros k v Hin%elem_of_map_to_list. unfold d in Hin.
    rewrite lookup_fmap in Hin.
    destruct (items suite !! k) as [b|] eqn:Hb; [|done].
    injection Hin as <-. exists b. eauto.
  - done.
  - cbn [rbind]. rewrite Hload. cbn [rbind].
    assert (Heq : items suite' = with_stats None None <$> items suite).
    { apply map_eq. intros k. rewrite Hitems, lookup_fmap.
      case_decide as Hk; [done|]. cbn. rewrite lookup_empty.
      destruct (items suite !! k) as [b|] eqn:Hb; [|done].
      exfalso. apply Hk. apply list_elem_of_fmap.
      exists (k, PDict (_as_json b)). split; [done|].
      apply elem_of_map_to_list. unfold d. by rewrite lookup_fmap, Hb. }
    rewrite bool_decide_eq_false_2.
    + destruct suite' as [f i]. cbn in *. by subst.
    + rewrite Heq. by intros ?%fmap_empty_inv.
Qed.

(** C2, as it is stated: serializing and reloading any suite gives a suite
    with the same benchmarks.  The suite without benchmarks is written, but
    reading it back raises [ValueError]. *)
Lemma empty_suite_does_not_reload :
  _load_json None (dump_data (empty_suite None)) = Raise ValueError ∧
  ¬ ∃ suite', _load_json None (dump_data (empty_suite None)) = Ok suite'.
Proof.
  assert (H : _load_json None (dump_data (empty_suite None)) = Raise ValueError)
    by (by vm_compute).
  split; [done|]. intros [suite' H']. by rewrite H in H'.
Qed.

(** C2, amended.  For a suite that is not empty and whose benchmarks were
    built by the constructor and [add_run], loading what [dump] wrote
    returns a suite with the same names and, under every name, a benchmark
    with the same runs, loops, inner_loops, warmups and metadata. *)
Theorem dump_load_roundtrip (suite : BenchmarkSuite) (fname : option string) :
  items suite ≠ ∅ →
  (∀ name b, items suite !! name = Some b → built b) →
  ∃ suite',
    _load_json fname (dump_data suite) = Ok suite' ∧
    dom (items suite') = dom (items suite) ∧
    ∀ name b, items suite !! name = Some b →
      ∃ b', items suite' !! name = Some b' ∧ same_fields b b'.
Proof.
  intros Hne Hbuilt. eexists. split.
  - apply load_dumped; [done|]. intros name b Hb.
    by eapply built_well_formed, Hbuilt.
  - cbn. split; [apply dom_fmap_L|]. intros name b Hb.
    exists (with_stats None None b). by rewrite lookup_fmap, Hb.
Qed.

Lemma dump_load_roundtrip_witness :
  ∃ b suite',
    built b ∧ _runs b = [[PFloat 0.5; PFloat 0.25]; [PFloat 0.75; PInt 1]] ∧
    _load_json None (dump_data (mkSuite None {[ "bench" := b ]})) = Ok suite' ∧
    ∃ b', items suite' !! "bench" = Some b' ∧ same_fields b b'.
Proof.
  assert (Hb : ∃ b, built b ∧
            _runs b = [[PFloat 0.5; PFloat 0.25]; [PFloat 0.75; PInt 1]]).
  { eexists. split.
    - eapply built_add_run with (samples := [PFloat 0.75; PInt 1]).
      + eapply built_add_run with (samples := [PFloat 0.5; PFloat 0.25]).
        * eapply built_init with (name := PStr " bench ")
            (loops := PInt 4) (inner_loops := PNone) (warmups := PInt 1)
            (metadata := None).
          vm_compute. reflexivity.
        * vm_compute. reflexivity.
      + vm_compute. reflexivity.
    - reflexivity. }
  destruct Hb as (b & Hb & Hruns).
  destruct (dump_load_roundtrip (mkSuite None {[ "bench" := b ]}) None)
    as (suite' & Hload & _ & Hsame).
  - cbn. apply insert_non_empty.
  - cbn. intros name b0 [_ <-]%lookup_singleton_Some. exact Hb.
  - exists b, suite'. split; [done|]. split; [done|]. split; [done|].
    apply Hsame. cbn. apply lookup_singleton_eq.
Defined.

(** *** Versions *)

Lemma version_2_checked_first (file : gmap string pyval) :
  version_is file 2 → ¬ version_is file 1.
Proof.
  unfold version_is, py_eq_int.
  destruct (py_as_number _) as [q|]; [|done].
  intros H2%Qeq_bool_eq H1%Qeq_bool_eq. rewrite H2 in H1. done.
Qed.

(** C8. Loading a file whose version is neither 1 nor 2 raises
    [ValueError], as the file [{"version": 3}] does; loading a version-2
    file whose [benchmarks] are empty raises [ValueError]; in neither case
    is there a suite. *)
Theorem load_rejects_version_and_empty (fname : option string)
    (file : gmap string pyval) :
  (¬ version_is file 1 → ¬ version_is file 2 →
   _load_json fname (PDict file) = Raise ValueError) ∧
  (version_is file 2 → file !! "benchmarks" = Some (PDict ∅) →
   _load_json fname (PDict file) = Raise ValueError) ∧
  _load_json fname (PDict {[ "version" := PInt 3 ]}) = Raise ValueError ∧
  ∀ e, _load_json fname (PDict file) = Raise e →
       ¬ ∃ suite, _load_json fname (PDict file) = Ok suite.
Proof.
  unfold version_is. split; [|split; [|split]].
  - intros H1 H2. unfold _load_json. change _JSON_VERSION with 2.
    rewrite (not_true_is_false _ H2), (not_true_is_false _ H1). done.
  - intros H2 Hb. unfold _load_json.
    change _JSON_VERSION with 2. rewrite H2, Hb.
    by rewrite map_to_list_empty.
  - by vm_compute.
  - intros e He [suite Hs]. by rewrite He in Hs.
Qed.

Lemma load_rejects_version_and_empty_witness :
  _load_json None (PDict {[ "version" := PStr "2" ]}) = Raise ValueError ∧
  _load_json None
    (PDict (<["benchmarks" := PDict ∅]> {[ "version" := PInt 2 ]}))
  = Raise ValueError.
Proof.
  split.
  - apply (load_rejects_version_and_empty None {[ "version" := PStr "2" ]});
      unfold version_is; by vm_compute.
  - apply (load_rejects_version_and_empty None
             (<["benchmarks" := PDict ∅]> {[ "version" := PInt 2 ]}));
      unfold version_is; by vm_compute.
Defined.

(** *** Version 1 *)

(** C5, as it is stated: the specification's version-1 example loads.  Its
    record has no ["name"], which the version-1 branch reads with
    [bench_data['name']]: loading it raises [KeyError]. *)
Lemma load_v1_example_raises :
  _load_json None example_v1 = Raise KeyError ∧
  ¬ ∃ suite, _load_json None example_v1 = Ok suite.
Proof.
  assert (H : _load_json None example_v1 = Raise KeyError) by (by vm_compute).
  split; [done|]. intros [suite Hs]. by rewrite H in Hs.
Qed.

Lemma load_v1_migrates (fname : option string)
    (file record md : gmap string pyval) (s : string) :
  version_is file 1 → ¬ version_is file 2 →
  file !! "benchmark" = Some (PDict record) →
  record !! "name" = Some (PStr s) →
  record !! "metadata" = Some (PDict md) →
  _load_json fname (PDict file) = _load_json fname (migrated_file s md record).
Proof.
  unfold version_is. intros H1 H2 Hrec Hname Hmd.
  unfold _load_json at 1. change _JSON_VERSION with 2.
  rewrite (not_true_is_false _ H2), H1.
  unfold migrate_v1. rewrite Hrec, Hname, Hmd. cbn [contains_name rbind py_truthy].
  unfold migrated_file, _load_json.
  rewrite lookup_insert_ne, lookup_singleton_eq by done.
  cbn [default]. unfold Datatypes.id.
  change (py_eq_int (PInt 2) _JSON_VERSION) with true. cbn iota.
  rewrite lookup_insert_eq, map_to_list_singleton. cbn [fmap list_fmap fst snd].
  unfold migrated_record, migrated_name.
  destruct (String.eqb s EmptyString); cbn [negb];
    by destruct (bool_decide (is_Some (md !! "name"))).
Qed.

(** C5, amended.  The version-1 example with an empty ["name"] field added
    to its record loads into a suite with exactly one benchmark, whose name
    is ["benchmark"].  In general a version-1 document whose record has a
    string ["name"] and a ["metadata"] object loads as the version-2
    document it is migrated to: one entry under the name, or under
    ["benchmark"] if the name is empty, with the name put into the metadata
    if they have none. *)
Theorem load_v1_named (fname : option string) :
  (∃ suite b,
     _load_json fname example_v1_named = Ok suite ∧
     items suite = {[ "benchmark" := b ]} ∧
     name b = Some (PStr "benchmark") ∧
     _runs b = [[PInt 1; PInt 2; PInt 3]]) ∧
  ∀ (file record md : gmap string pyval) (s : string),
    version_is file 1 → ¬ version_is file 2 →
    file !! "benchmark" = Some (PDict record) →
    record !! "name" = Some (PStr s) →
    record !! "metadata" = Some (PDict md) →
    _load_json fname (PDict file) = _load_json fname (migrated_file s md record).
Proof.
  split; [|apply load_v1_migrates].
  set (b := mkBenchmark 1 None 0 [[PInt 1; PInt 2; PInt 3]]
              {[ "name" := PStr "benchmark" ]} None None).
  exists (mkSuite fname {[ "benchmark" := b ]}), b.
  split; [by vm_compute|]. done.
Qed.

Lemma load_v1_named_witness :
  _load_json None example_v1_named
  = _load_json None
      (migrated_file EmptyString ∅
         (<["name" := PStr EmptyString]>
            (<["metadata" := PDict ∅]>
               {[ "runs" := PList [PList [PInt 1; PInt 2; PInt 3]] ]}))).
Proof.
  destruct (load_v1_named None) as [_ H].
  apply H; unfold version_is; by vm_compute.
Defined.

End SuiteProperties.

(** * Properties of the rest of the module *)

(** ** The life of a benchmark *)

Section MedianProperties.
Import Bench BenchSpec.

Lemma divisor_pos (b : Benchmark) :
  well_formed b → 1 ≤ _loops b * default 1 (_inner_loops b).
Proof.
  intros [HL HI _ _ _ _]. destruct (_inner_loops b) as [inner|]; cbn; [|lia].
  specialize (HI inner eq_refl). nia.
Qed.

Lemma normalized_positive (b : Benchmark) :
  well_formed b →
  Forall (λ q, (0 < q)%Q)
    (normalized (_loops b) (_inner_loops b) (_warmups b) (_runs b)).
Proof.
  intros Hwf. pose proof (divisor_pos b Hwf) as Hdiv.
  destruct Hwf as [_ _ _ Hruns _ _]. unfold normalized.
  apply Forall_concat, Forall_fmap.
  eapply Forall_impl; [exact Hruns|]. cbn. intros run (Hok & _).
  apply Forall_fmap, Forall_drop.
  eapply Forall_impl; [exact Hok|]. cbn. intros raw Hraw.
  apply sample_ok_spec in Hraw as (q & Hq & Hpos).
  unfold number_value. rewrite Hq. cbn.
  apply Qlt_shift_div_l.
  - change 0%Q with (inject_Z 0). rewrite <- Zlt_Qlt. lia.
  - by rewrite Qmult_0_l.
Qed.

Lemma normalized_nonempty (b : Benchmark) :
  well_formed b → _runs b ≠ [] →
  normalized (_loops b) (_inner_loops b) (_warmups b) (_runs b) ≠ [].
Proof.
  intros [_ _ HW Hruns _ _] Hne. unfold normalized.
  destruct (_runs b) as [|run runs]; [done|].
  apply Forall_cons in Hruns as [(_ & Hlen & _) _].
  cbn. intros Hnil. apply app_eq_nil in Hnil as [Hnil _].
  apply fmap_nil_inv in Hnil.
  assert (Hd : length (drop (Z.to_nat (_warmups b)) run) = 0%nat)
    by (by rewrite Hnil).
  rewrite length_drop in Hd. lia.
Qed.

(** The median of positive values exists and is positive. *)
Lemma statistics_median_positive (data : list Q) :
  data ≠ [] → Forall (λ q, (0 < q)%Q) data →
  ∃ m, statistics_median data = Ok m ∧ (0 < m)%Q.
Proof.
  intros Hne Hpos. unfold statistics_median.
  pose proof (merge_sort_Permutation Qle_rel data) as Hperm.
  set (sorted := merge_sort Qle_rel data) in *.
  assert (Hlen : length sorted = length data) by (by rewrite Hperm).
  assert (Hsorted : Forall (λ q, (0 < q)%Q) sorted) by (by rewrite Hperm).
  assert (Hn : (0 < length sorted)%nat)
    by (rewrite Hlen; destruct data; [done|cbn; lia]).
  rewrite Forall_lookup in Hsorted.
  destruct (Nat.eqb_spec (length sorted) 0) as [?|_]; [lia|].
  destruct (Nat.eqb_spec (length sorted `mod` 2) 1) as [Hodd|Heven].
  - destruct (lookup_lt_is_Some_2 sorted (length sorted / 2)) as [x Hx].
    { apply Nat.Div0.div_lt_upper_bound. lia. }
    rewrite Hx. exists x. split; [done|]. by eapply Hsorted.
  - assert (Hdiv : (length sorted = 2 * (length sorted / 2))%nat).
    { pose proof (Nat.div_mod_eq (length sorted) 2).
      pose proof (Nat.mod_upper_bound (length sorted) 2). lia. }
    destruct (lookup_lt_is_Some_2 sorted (length sorted / 2 - 1)) as [x Hx];
      [lia|].
    destruct (lookup_lt_is_Some_2 sorted (length sorted / 2)) as [y Hy];
      [lia|].
    rewrite Hx, Hy. eexists. split; [done|].
    pose proof (Hsorted _ _ Hx). pose proof (Hsorted _ _ Hy).
    apply Qlt_shift_div_l; [done|]. Lqa.lra.
Qed.


End MedianProperties.

Section MedianCache.
Import Bench BenchSpec BenchMore.

Lemma two_runs_built : built two_runs.
Proof.
  eapply built_add_run with (samples := [PInt 7; PInt 6; PInt 24]).
  - eapply built_add_run with (samples := [PInt 5; PInt 12; PInt 18]).
    + eapply built_init with (name := PStr "bench") (loops := PInt 2)
        (inner_loops := PInt 3) (warmups := PInt 1) (metadata := None).
      vm_compute. reflexivity.
    + vm_compute. reflexivity.
  - vm_compute. reflexivity.
Qed.

Lemma no_run_built : built no_run.
Proof.
  eapply built_init with (name := PStr "bench") (loops := default_loops)
    (inner_loops := default_inner_loops) (warmups := default_warmups)
    (metadata := None).
  vm_compute. reflexivity.
Qed.

(** [median] on a well-formed benchmark with runs and an empty cache. *)
Lemma median_computed (b : Benchmark) :
  well_formed b → _median b = None → _runs b ≠ [] →
  ∃ m b',
    median b = (Ok m, b') ∧ (0 < m)%Q ∧ same_fields b b' ∧
    _median b' = Some m ∧
    statistics_median
      (normalized (_loops b) (_inner_loops b) (_warmups b) (_runs b)) = Ok m.
Proof.
  intros Hwf Hm Hne.
  destruct (get_samples_well_formed b Hwf) as (b1 & Hget & Hsame & Hs1 & Hm1).
  destruct (statistics_median_positive _ (normalized_nonempty b Hwf Hne)
              (normalized_positive b Hwf)) as (m & Hmed & Hpos).
  unfold median, bind, get, ret. rewrite Hm, Hget. unfold lift, modify, raise.
  rewrite Hmed.
  assert (Hnz : Qeq_bool m 0 = false).
  { apply not_true_is_false. intros Heq%Qeq_bool_iff. rewrite Heq in Hpos.
    by apply Qlt_irrefl in Hpos. }
  rewrite Hnz. eexists _, _. split; [reflexivity|].
  destruct Hsame as (? & ? & ? & ? & ?). by repeat split.
Qed.

Lemma median_cache_step (b : Benchmark) outcome b' :
  well_formed b → median_cache_ok b → median b = (outcome, b') →
  median_cache_ok b'.
Proof.
  intros Hwf Hok. unfold median, bind, get, ret.
  destruct (_median b) as [m|] eqn:Hm; [by intros [= _ <-]|].
  destruct (get_samples_well_formed b Hwf)
    as (b1 & -> & (Er & El & Ei & Ew & _) & Hs1 & Hm1).
  unfold lift, modify, raise, median_cache_ok.
  destruct (statistics_median _) as [m|e] eqn:Hmed.
  - destruct (Qeq_bool m 0); intros [= _ <-]; cbn;
      rewrite <- El, <- Ei, <- Ew, <- Er; by intros ? [= <-].
  - intros [= _ <-]. rewrite Hm1, Hm. done.
Qed.

Lemma built_median_cache (b : Benchmark) : built b → median_cache_ok b.
Proof.
  induction 1 as [name loops inner warmups md b Hinit
                 |b samples outcome b' Hb IH Hrun
                 |b outcome b' Hb IH Hget
                 |b outcome b' Hb IH Hmed].
  - apply init_inv in Hinit as (L & I & W & s & _ & _ & _ & _ & _ & _ & _ & ->).
    by intros m.
  - destruct (add_run_cases b samples) as [[_ Hr]|[_ Hr]];
      rewrite Hr in Hrun; injection Hrun as _ <-; [done|]. by intros m.
  - apply built_well_formed in Hb.
    destruct (get_samples_well_formed b Hb)
      as (b1 & Hb1 & (Er & El & Ei & Ew & _) & _ & Hm1).
    rewrite Hb1 in Hget. injection Hget as _ <-.
    unfold median_cache_ok. rewrite <- El, <- Ei, <- Ew, <- Er, Hm1. apply IH.
  - eapply median_cache_step; [|exact IH|exact Hmed].
    by apply built_well_formed.
Qed.




End MedianCache.

Section ConfigurationProperties.
Import Bench BenchSpec BenchMore.

(** X3. The invariants of the data model hold of every built benchmark:
    [loops] and [inner_loops] are at least 1, [warmups] at least 0; every
    run has the length of the first, which is above [warmups], and holds
    numbers above zero only; the name is a non-empty stripped string. *)
Theorem built_invariants (b : Benchmark) :
  built b →
  1 ≤ _loops b ∧
  (∀ inner, _inner_loops b = Some inner → 1 ≤ inner) ∧
  0 ≤ _warmups b ∧
  (∀ run, run ∈ _runs b →
     Z.of_nat (length run) = run_length b ∧
     _warmups b < Z.of_nat (length run) ∧
     ∀ value, value ∈ run → ∃ q, py_as_number value = Some q ∧ (0 < q)%Q) ∧
  (∃ s, name b = Some (PStr s) ∧ s ≠ EmptyString ∧ strip s = s).
Proof.
  intros [HL HI HW Hruns _ (s & Hname & Hs & Hne)]%built_well_formed.
  repeat split; try done.
  - by destruct (proj1 (Forall_forall _ _) Hruns run) as (_ & _ & ?).
  - by destruct (proj1 (Forall_forall _ _) Hruns run) as (_ & ? & _).
  - intros value Hin.
    destruct (proj1 (Forall_forall _ _) Hruns run) as (Hok & _ & _); [done|].
    apply sample_ok_spec. by apply (proj1 (Forall_forall _ _) Hok).
  - by exists s.
Qed.

Lemma built_invariants_witness :
  1 ≤ _loops two_runs ∧ 0 ≤ _warmups two_runs ∧
  ∀ run, run ∈ _runs two_runs → _warmups two_runs < Z.of_nat (length run).
Proof.
  destruct (built_invariants two_runs two_runs_built) as (HL & _ & HW & Hruns & _).
  split; [done|]. split; [done|]. intros run Hin. by apply Hruns.
Defined.

Lemma well_formed_reconfigured (b : Benchmark) (L : Z) (I : option Z) :
  well_formed b → 1 ≤ L → (∀ inner, I = Some inner → 1 ≤ inner) →
  well_formed
    (mkBenchmark L I (_warmups b) (_runs b) (metadata b) None None).
Proof. intros [_ _ HW Hruns _ Hname] HL HI. by split. Qed.

(** The setters either refuse the value and leave the object as it was, or
    store it and clear both caches. *)
Lemma loops_setter_cases (value : pyval) (b : Benchmark) :
  loops_setter value b =
    match py_as_int value with
    | Some z =>
        if 1 <=? z
        then (Ok tt, mkBenchmark z (_inner_loops b) (_warmups b) (_runs b)
                       (metadata b) None None)
        else (Raise ValueError, b)
    | None => (Raise ValueError, b)
    end.
Proof.
  unfold loops_setter. destruct (py_as_int value) as [z|]; [|done].
  by destruct (1 <=? z).
Qed.

Lemma inner_loops_setter_cases (value : pyval) (b : Benchmark) :
  inner_loops_setter value b =
    let stored I := (Ok tt, mkBenchmark (_loops b) I (_warmups b) (_runs b)
                              (metadata b) None None) in
    match value with
    | PNone => stored None
    | _ => match py_as_int value with
           | Some z => if 1 <=? z then stored (Some z) else (Raise ValueError, b)
           | None => (Raise ValueError, b)
           end
    end.
Proof.
  unfold inner_loops_setter.
  destruct value as [|bv|z| | | |]; cbn; try done.
  - by destruct (1 <=? Z.b2z bv).
  - by destruct (1 <=? z).
Qed.

Lemma warmups_setter_cases (value : pyval) (b : Benchmark) :
  warmups_setter value b =
    match py_as_int value with
    | Some z =>
        if 0 <=? z
        then (Ok tt, mkBenchmark (_loops b) (_inner_loops b) z (_runs b)
                       (metadata b) None None)
        else (Raise ValueError, b)
    | None => (Raise ValueError, b)
    end.
Proof.
  unfold warmups_setter. destruct (py_as_int value) as [z|]; [|done].
  by destruct (0 <=? z).
Qed.

Lemma inner_loops_setter_stores (value : pyval) (b : Benchmark) (z : Z) :
  py_as_int value = Some z → 1 ≤ z →
  inner_loops_setter value b =
    (Ok tt, mkBenchmark (_loops b) (Some z) (_warmups b) (_runs b)
              (metadata b) None None).
Proof.
  intros Hz Hz1. rewrite inner_loops_setter_cases.
  destruct value as [|[]|z'| | | |]; try done; cbn in Hz; injection Hz as <-.
  - done.
  - cbn in Hz1. lia.
  - cbn. by destruct (Z.leb_spec 1 z'); [|lia].
Qed.



End ConfigurationProperties.

Section WarmupsAndWorkers.
Import Bench BenchSpec BenchMore.

Lemma concat_all_nil {A} (ls : list (list A)) :
  Forall (λ l, l = []) ls → concat ls = [].
Proof. induction 1 as [|l ls -> _ IH]; [done|]. by cbn. Qed.

(** X5. The [warmups] setter does not look at the stored runs.  Raising
    [warmups] of a built benchmark to the length of its runs or beyond is
    accepted; from then on [get_samples] returns no sample at all while
    [get_nsample] is [nrun * (run_length - warmups)], zero or negative, and
    [add_run] refuses every run of the stored length. *)
Theorem warmups_setter_unchecked (b : Benchmark) (w : Z) :
  built b → _runs b ≠ [] → run_length b ≤ w →
  ∃ b1 b2,
    warmups_setter (PInt w) b = (Ok tt, b1) ∧ _runs b1 = _runs b ∧
    get_samples b1 = (Ok [], b2) ∧
    get_nsample b1 = get_nrun b * (run_length b - w) ∧ get_nsample b1 ≤ 0 ∧
    ∀ samples, Z.of_nat (length samples) = run_length b →
      add_run samples b1 = (Raise ValueError, b1).
Proof.
  intros [HL HI HW Hruns _ _]%built_well_formed Hne Hw.
  assert (Hlen : 0 ≤ run_length b) by (unfold run_length; lia).
  rewrite warmups_setter_cases. cbn [py_as_int].
  destruct (Z.leb_spec 0 w); [|lia].
  set (b1 := mkBenchmark _ _ w _ _ None None).
  assert (Hn : get_nsample b1 = get_nrun b * (run_length b - w)).
  { unfold get_nsample, get_nrun, run_length. cbn.
    destruct (Z.eqb_spec (Z.of_nat (length (_runs b))) 0) as [H0|]; [|done].
    destruct (_runs b); [done|cbn in H0; lia]. }
  eexists b1, _. split; [done|]. split; [done|]. split; [|split; [done|split]].
  - unfold get_samples, bind, get, ret, get_loops, raise, lift, modify. cbn.
    destruct (Z.eqb_spec (_loops b) 0); [lia|].
    assert (Hnil : concat (map (slice_from w) (_runs b)) = []).
    { apply concat_all_nil. rewrite Forall_map.
      eapply Forall_impl; [exact Hruns|]. cbn. intros run (_ & _ & Hrun).
      rewrite slice_from_nonneg by lia. apply drop_ge. lia. }
    destruct (_inner_loops b); cbn; rewrite Hnil; cbn; reflexivity.
  - rewrite Hn. unfold get_nrun. nia.
  - intros samples Hs.
    destruct (add_run_cases b1 samples) as [[_ Hr]|[Hacc _]]; [done|].
    exfalso. apply Hacc. right; right; left. cbn. lia.
Qed.

Lemma warmups_setter_unchecked_witness :
  ∃ b1 b2,
    warmups_setter (PInt 3) two_runs = (Ok tt, b1) ∧
    get_samples b1 = (Ok [], b2) ∧ get_nsample b1 = 0.
Proof.
  destruct (warmups_setter_unchecked two_runs 3 two_runs_built)
    as (b1 & b2 & Hset & _ & Hget & Hn & _); [done|by vm_compute|].
  exists b1, b2. by rewrite Hn.
Defined.



End WarmupsAndWorkers.

(** ** Loading validates *)

Section LoadingProperties.
Import Bench BenchSpec BenchMore Suite SuiteSpec.

Lemma init_caches name loops inner_loops warmups md b :
  __init__ name loops inner_loops warmups md = Ok b →
  _runs b = [] ∧ _samples b = None ∧ _median b = None.
Proof.
  by intros (L & I & W & s & _ & _ & _ & _ & _ & _ & _ & ->)%init_inv.
Qed.

(** The runs replayed by [_json_load] are lists that [add_run] accepts. *)
Lemma for_each_add_run_any_inv (values : list pyval) : ∀ b0 b : Benchmark,
  built b0 → _samples b0 = None → _median b0 = None →
  for_each add_run_any values b0 = (Ok tt, b) →
  built b ∧ _samples b = None ∧ _median b = None ∧
  ∃ runs, values = PList <$> runs ∧ _runs b = _runs b0 ++ runs.
Proof.
  induction values as [|value values IH]; intros b0 b Hb0 Hs Hm.
  { intros [= <-]. repeat split; try done. exists []. by rewrite app_nil_r. }
  cbn [for_each]. unfold bind.
  destruct (add_run_any value b0) as [[[]|e] b1] eqn:Hrun; [|done].
  assert (Hlist : ∃ run, value = PList run ∧ add_run run b0 = (Ok tt, b1)).
  { destruct value as [|bv|z|q|s|l|d]; cbn in Hrun; try done.
    - by destruct bv.
    - by destruct (negb (z =? 0)).
    - by destruct (negb (Qeq_bool q 0)).
    - by exists l. }
  destruct Hlist as (run & -> & Hadd). intros Hrest.
  assert (Hb1 : b1 = appended b0 run).
  { destruct (add_run_cases b0 run) as [[_ Hr]|[_ Hr]];
      rewrite Hr in Hadd; [done|]. by injection Hadd as <-. }
  destruct (IH b1 b) as (Hb & Hs' & Hm' & runs & -> & Hruns); try done.
  - by eapply built_add_run.
  - by rewrite Hb1.
  - by rewrite Hb1.
  - repeat split; try done. exists (run :: runs). split; [done|].
    rewrite Hruns, Hb1. cbn. by rewrite <- app_assoc.
Qed.

Lemma json_load_built (data : pyval) (b : Benchmark) :
  _json_load data = Ok b →
  built b ∧ _samples b = None ∧ _median b = None ∧
  ∃ d runs, data = PDict d ∧ d !! "runs" = Some runs ∧
            py_iter runs = Ok (PList <$> _runs b).
Proof.
  unfold _json_load. destruct data as [| | | | | |d]; try done.
  destruct (d !! "metadata") as [[| | | | | |md]|]; try done.
  destruct (__init__ _ _ _ _ _) as [b0|e] eqn:Hinit; [|done]. cbn [rbind].
  destruct (d !! "runs") as [runs|] eqn:Hruns; [|done].
  destruct (py_iter runs) as [values|e] eqn:Hiter; [|done]. cbn [rbind].
  destruct (for_each add_run_any values b0) as [[[]|e] b1] eqn:Hfor; [|done].
  intros [= <-].
  destruct (init_caches _ _ _ _ _ _ Hinit) as (Hr0 & Hs0 & Hm0).
  destruct (for_each_add_run_any_inv values b0 b1) as (Hb & Hs & Hm & rs & -> & Hrs);
    try done; [by eapply built_init|].
  repeat split; try done. exists d, runs. rewrite Hrs, Hr0. by repeat split.
Qed.

(** X7. What [_json_load] returns was built by the constructor and
    [add_run]: the record's values went through the same validation, the
    caches are empty, and the runs are the lists of the record, in order. *)
Theorem json_load_validates (data : pyval) (b : Benchmark) :
  _json_load data = Ok b →
  built b ∧ _samples b = None ∧ _median b = None ∧
  ∃ d runs, data = PDict d ∧ d !! "runs" = Some runs ∧
            py_iter runs = Ok (PList <$> _runs b).
Proof. apply json_load_built. Qed.

Lemma json_load_validates_witness :
  ∃ b, _json_load (PDict (_as_json two_runs)) = Ok b ∧ built b.
Proof.
  destruct (_json_load (PDict (_as_json two_runs))) as [b|e] eqn:Hload;
    [|by vm_compute in Hload].
  exists b. split; [done|]. by apply (json_load_validates _ b Hload).
Defined.

Lemma load_each_inv (entries : list (pyval * pyval)) :
  ∀ acc suite : BenchmarkSuite,
  load_each entries acc = Ok suite →
  filename suite = filename acc ∧
  (∀ name b, items suite !! name = Some b →
     items acc !! name = Some b ∨
     ∃ data, (PStr name, data) ∈ entries ∧ _json_load data = Ok b) ∧
  (entries ≠ [] → items suite ≠ ∅).
Proof.
  induction entries as [|[key data] entries IH]; intros acc suite.
  { intros [= <-]. split; [done|]. split; [by left|done]. }
  cbn [load_each].
  destruct (_json_load data) as [b|e] eqn:Hb; [|done]. cbn [rbind].
  destruct key as [| | | |s| |]; try done.
  unfold _add_benchmark. case_bool_decide as Hdup; [done|]. cbn [rbind].
  intros Hrest. destruct (IH _ _ Hrest) as (Hfile & Hitems & Hne).
  split; [done|]. split.
  - intros name b' Hlook. destruct (Hitems name b' Hlook) as [Hacc|(d & Hin & Hd)].
    + cbn in Hacc. destruct (decide (s = name)) as [->|Hsn].
      * rewrite lookup_insert_eq in Hacc. injection Hacc as <-.
        right. exists data. split; [by left|done].
      * rewrite lookup_insert_ne in Hacc by done. by left.
    + right. exists d. split; [by right|done].
  - intros _ Hempty.
    assert (Hs : items suite !! s = None) by (by rewrite Hempty).
    clear Hne Hitems IH. revert Hs.
    assert (Hkeep : ∀ entries acc suite, load_each entries acc = Ok suite →
              ∀ k, is_Some (items acc !! k) → is_Some (items suite !! k)).
    { clear. induction entries as [|[key data] entries IH]; intros acc suite.
      { by intros [= <-]. }
      cbn [load_each]. destruct (_json_load data) as [b|]; [|done]. cbn [rbind].
      destruct key as [| | | |s| |]; try done.
      unfold _add_benchmark. case_bool_decide; [done|]. cbn [rbind].
      intros Hrest k Hk. apply (IH _ _ Hrest). cbn.
      destruct (decide (s = k)) as [->|]; [by rewrite lookup_insert_eq|].
      by rewrite lookup_insert_ne. }
    intros Hs. destruct (Hkeep _ _ _ Hrest s) as [? Hsome].
    + cbn. by rewrite lookup_insert_eq.
    + by rewrite Hs in Hsome.
Qed.

(** What every suite that [_load_json] returns satisfies. *)
Lemma load_json_inv (fname : option string) (bench_file : pyval)
    (suite : BenchmarkSuite) :
  _load_json fname bench_file = Ok suite →
  items suite ≠ ∅ ∧ filename suite = fname ∧
  ∀ key b, items suite !! key = Some b →
    built b ∧ _samples b = None ∧ _median b = None.
Proof.
  unfold _load_json. destruct bench_file as [| | | | | |file]; try done.
  destruct (if py_eq_int _ _ then _ else _) as [entries|e]; [|done].
  cbn [rbind].
  destruct (load_each entries (empty_suite fname)) as [s|e] eqn:Hload; [|done].
  cbn [rbind]. case_bool_decide as Hempty; [done|]. intros [= <-].
  destruct (load_each_inv _ _ _ Hload) as (Hfile & Hitems & _).
  split; [done|]. split; [done|]. intros key b Hb.
  destruct (Hitems key b Hb) as [Hacc|(data & _ & Hdata)]; [done|].
  by apply json_load_built in Hdata as (? & ? & ? & _).
Qed.

(** X8. A suite that [_load_json] returns is never empty, carries the file
    name it was given, and holds only benchmarks that were built by the
    constructor and [add_run], with empty caches. *)
Theorem load_json_validates (fname : option string) (bench_file : pyval)
    (suite : BenchmarkSuite) :
  _load_json fname bench_file = Ok suite →
  items suite ≠ ∅ ∧ filename suite = fname ∧
  ∀ key b, items suite !! key = Some b →
    built b ∧ _samples b = None ∧ _median b = None.
Proof. apply load_json_inv. Qed.

Lemma load_json_validates_witness :
  ∃ suite, _load_json None example_v1_named = Ok suite ∧ items suite ≠ ∅.
Proof.
  destruct (_load_json None example_v1_named) as [suite|e] eqn:Hload;
    [|by vm_compute in Hload].
  exists suite. split; [done|]. by apply (load_json_validates _ _ _ Hload).
Defined.



End LoadingProperties.

Section SuiteMoreProperties.
Import Bench BenchSpec BenchMore Suite SuiteSpec SuiteMore.

(** X10. A record that [_json_load] cannot read: without ["metadata"], or
    with metadata that are no object, it raises [AttributeError] (although
    [_as_json] leaves the key out when the metadata are empty); with
    metadata but no ["name"] it never succeeds; and once the constructor
    accepted the settings, a record without ["runs"] raises [KeyError]. *)
Theorem json_load_missing_keys (d : gmap string pyval) :
  ((∀ md, d !! "metadata" ≠ Some (PDict md)) →
   _json_load (PDict d) = Raise AttributeError) ∧
  (∀ md, d !! "metadata" = Some (PDict md) → md !! "name" = None →
     ∃ e, _json_load (PDict d) = Raise e ∧ (e = TypeError ∨ e = ValueError)) ∧
  (∀ md b0, d !! "metadata" = Some (PDict md) →
     __init__ (default PNone (md !! "name")) (default (PInt 1) (d !! "loops"))
       (default PNone (d !! "inner_loops")) (default (PInt 0) (d !! "warmups"))
       (Some md) = Ok b0 →
     d !! "runs" = None →
     _json_load (PDict d) = Raise KeyError).
Proof.
  split; [|split].
  - intros Hno. unfold _json_load.
    destruct (d !! "metadata") as [[| | | | | |md]|]; try done.
    by destruct (Hno md).
  - intros md Hmd Hname. unfold _json_load. rewrite Hmd, Hname. cbn [default].
    unfold Datatypes.id.
    destruct (__init__ _ _ _ _ _) as [b0|e] eqn:Hinit.
    + by apply init_inv in Hinit as (? & ? & ? & ? & _ & _ & _ & _ & _ & ? & _).
    + exists e. split; [done|].
      unfold __init__, loops_setter, inner_loops_setter, warmups_setter,
        name_setter, _clear_stats_cache, bind, modify, raise in Hinit.
      repeat match type of Hinit with
             | context [match py_as_int ?v with _ => _ end] =>
                 destruct (py_as_int v); cbn in Hinit
             | context [if ?c then _ else _] => destruct c; cbn in Hinit
             | context [match ?v with PNone => _ | _ => _ end] =>
                 destruct v; cbn in Hinit
             end; injection Hinit as <-; auto.
  - intros md b0 Hmd Hinit Hruns. unfold _json_load.
    by rewrite Hmd, Hinit, Hruns.
Qed.

Lemma json_load_missing_keys_witness :
  _json_load (PDict {[ "runs" := PList [] ]}) = Raise AttributeError ∧
  _json_load (PDict {[ "metadata" := PDict {[ "name" := PStr "b" ]} ]})
  = Raise KeyError.
Proof.
  split.
  - apply (json_load_missing_keys {[ "runs" := PList [] ]}).
    intros md. by vm_compute.
  - pose proof (json_load_missing_keys
                  {[ "metadata" := PDict {[ "name" := PStr "b" ]} ]})
      as (_ & _ & H).
    eapply (H {[ "name" := PStr "b" ]}); [done| |done]. by vm_compute.
Defined.

(** X11. [add_benchmark] files a benchmark under its name, leaving the other
    entries alone, and refuses a second benchmark of that name with
    [ValueError]; a built benchmark always has a name to be filed under. *)
Theorem add_benchmark_once (suite : BenchmarkSuite) (b b' : Benchmark)
    (s : string) :
  name b = Some (PStr s) → name b' = Some (PStr s) →
  (items suite !! s = None →
   ∃ suite',
     add_benchmark b suite = Ok suite' ∧
     items suite' = <[s := b]> (items suite) ∧
     size (items suite') = S (size (items suite)) ∧
     add_benchmark b' suite' = Raise ValueError) ∧
  (is_Some (items suite !! s) → add_benchmark b suite = Raise ValueError) ∧
  (built b → ∃ suite', add_benchmark b (empty_suite None) = Ok suite').
Proof.
  intros Hb Hb'. unfold add_benchmark, _add_benchmark. rewrite Hb, Hb'.
  split; [|split].
  - intros Hfree. rewrite bool_decide_eq_false_2 by (rewrite Hfree; by intros [? ?]).
    eexists. split; [done|]. cbn. split; [done|].
    split; [by apply map_size_insert_None|].
    by rewrite lookup_insert_eq, bool_decide_eq_true_2.
  - intros Hdup. by rewrite bool_decide_eq_true_2.
  - intros _. cbn. rewrite lookup_empty.
    rewrite bool_decide_eq_false_2 by (by intros [? ?]). by eexists.
Qed.

Lemma add_benchmark_once_witness :
  ∃ suite',
    add_benchmark two_runs (empty_suite None) = Ok suite' ∧
    add_benchmark no_run suite' = Raise ValueError.
Proof.
  destruct (add_benchmark_once (empty_suite None) two_runs no_run "bench")
    as [H _]; [done..|].
  destruct H as (suite' & H1 & _ & _ & H2); [done|]. by exists suite'.
Defined.

Lemma name_key_built (b : Benchmark) : built b → is_Some (name_key b).
Proof.
  intros [_ _ _ _ _ (s & Hname & _)]%built_well_formed.
  unfold name_key, name. by rewrite Hname.
Qed.

Lemma by_name_total : Total by_name.
Proof.
  intros b1 b2. unfold by_name.
  destruct (name_key b1) as [s1|], (name_key b2) as [s2|]; auto.
  destruct (String.leb_total s1 s2) as [->| ->]; cbn; auto.
Qed.

Lemma get_benchmarks_named (suite : BenchmarkSuite) :
  (∀ key b, items suite !! key = Some b → is_Some (name_key b)) →
  get_benchmarks suite = Ok (merge_sort by_name (map_to_list (items suite)).*2).
Proof.
  intros Hnames. unfold get_benchmarks.
  assert (Hall : forallb (λ b, bool_decide (is_Some (name_key b)))
                   (map_to_list (items suite)).*2 = true).
  { apply forallb_forall. intros b Hin%list_elem_of_In.
    apply list_elem_of_fmap in Hin as ([key b'] & -> & Hin).
    apply elem_of_map_to_list in Hin. apply bool_decide_eq_true_2. eauto. }
  by rewrite Hall.
Qed.



Lemma merge_sort_singleton (b : Benchmark) : merge_sort by_name [b] = [b].
Proof. reflexivity. Qed.

(** X13. A built benchmark that is dumped on its own and read back with
    [Benchmark.loads] comes back with the same runs, loops, inner_loops,
    warmups and metadata. *)
Theorem benchmark_dump_loads (b : Benchmark) :
  built b →
  ∃ bench_file b',
    dump b = Ok bench_file ∧ loads bench_file = Ok b' ∧ same_fields b b'.
Proof.
  intros Hb. pose proof (built_well_formed b Hb) as Hwf.
  destruct (wf_name b Hwf) as (s & Hname & _).
  unfold dump, add_benchmark, _add_benchmark, name. rewrite Hname. cbn.
  rewrite lookup_empty, bool_decide_eq_false_2 by (by intros [? ?]).
  cbn [rbind]. eexists _, (with_stats None None b). split; [done|].
  split; [|done]. unfold loads, load.
  rewrite load_dumped; cbn.
  - rewrite get_benchmarks_named.
    + cbn. rewrite insert_empty, map_fmap_singleton, map_to_list_singleton.
      by cbn.
    + cbn. intros key b0. rewrite insert_empty, map_fmap_singleton.
      intros [_ <-]%lookup_singleton_Some.
      unfold name_key, name. cbn. by rewrite Hname.
  - apply insert_non_empty.
  - intros key b0. rewrite insert_empty.
    by intros [_ <-]%lookup_singleton_Some.
Qed.

Lemma benchmark_dump_loads_witness :
  ∃ bench_file b',
    dump two_runs = Ok bench_file ∧ loads bench_file = Ok b' ∧
    same_fields two_runs b'.
Proof. exact (benchmark_dump_loads two_runs two_runs_built). Defined.

(** X14. [Benchmark.load] wants exactly one benchmark in the file: from a
    file that [_load_json] reads it returns that benchmark, and it raises
    [ValueError] when the file holds more. *)
Theorem load_wants_one_benchmark (fname : option string) (bench_file : pyval)
    (suite : BenchmarkSuite) :
  _load_json fname bench_file = Ok suite →
  (∀ key b, items suite = {[ key := b ]} → load fname bench_file = Ok b) ∧
  (size (items suite) ≠ 1%nat → load fname bench_file = Raise ValueError).
Proof.
  intros Hload. pose proof (load_json_inv _ _ _ Hload) as (_ & _ & Hall).
  unfold load. rewrite Hload. cbn [rbind].
  assert (Hnames : ∀ key b, items suite !! key = Some b → is_Some (name_key b)).
  { intros key b Hb. apply name_key_built. by apply (Hall key b). }
  rewrite get_benchmarks_named by done. cbn [rbind]. split.
  - intros key b ->. by rewrite map_to_list_singleton.
  - intros Hsize.
    pose proof (merge_sort_Permutation by_name (map_to_list (items suite)).*2)
      as Hperm.
    apply Permutation_length in Hperm.
    rewrite length_fmap, length_map_to_list in Hperm.
    destruct (merge_sort _ _) as [|b1 [|b2 l]];
      first [done | cbn in Hperm; lia].
Qed.

Lemma load_wants_one_benchmark_witness :
  ∃ suite b,
    _load_json None example_v1_named = Ok suite ∧
    load None example_v1_named = Ok b.
Proof.
  set (b := mkBenchmark 1 None 0 [[PInt 1; PInt 2; PInt 3]]
              {[ "name" := PStr "benchmark" ]} None None).
  assert (Hload : _load_json None example_v1_named
                  = Ok (mkSuite None {[ "benchmark" := b ]})) by (by vm_compute).
  exists (mkSuite None {[ "benchmark" := b ]}), b. split; [done|].
  destruct (load_wants_one_benchmark None _ _ Hload) as [H _].
  by apply (H "benchmark" b).
Defined.

End SuiteMoreProperties.

(** ** More of the significance engine *)

Section CriticalValueOrder.
Import Significance SignificanceSpec.

(** From one degree of freedom to the next the critical value does not
    grow, and it stays between 1.960 and 12.706. *)
Lemma critical_value_step (d : Z) :
  1 ≤ d →
  ∃ c c', critical_value_by_range d = Ok c ∧
          critical_value_by_range (d + 1) = Ok c' ∧
          (c' <= c)%Q ∧ (1.960 <= c')%Q ∧ (c <= 12.706)%Q.
Proof.
  intros Hd. destruct (Z.lt_ge_cases d 200) as [Hsmall|Hbig].
  - assert (Hall : forallb (λ n : nat,
        match critical_value_by_range (Z.of_nat n),
              critical_value_by_range (Z.of_nat n + 1) with
        | Ok c, Ok c' =>
            Qle_bool c' c && Qle_bool 1.960 c' && Qle_bool c 12.706
        | _, _ => false
        end) (seq 1 199) = true) by (by vm_compute).
    rewrite forallb_forall in Hall.
    specialize (Hall (Z.to_nat d) ltac:(apply in_seq; lia)).
    rewrite Z2Nat.id in Hall by lia.
    destruct (critical_value_by_range d) as [c|]; [|done].
    destruct (critical_value_by_range (d + 1)) as [c'|]; [|done].
    apply andb_prop in Hall as [[H1 H2]%andb_prop H3].
    exists c, c'. rewrite <- !Qle_bool_iff. by repeat split.
  - exists 1.960%Q, 1.960%Q. unfold critical_value_by_range.
    destruct (Z.leb_spec 200 d); [|lia].
    destruct (Z.leb_spec 200 (d + 1)); [|lia]. by repeat split.
Qed.

(** X15. The critical value never grows with the degrees of freedom: for
    [1 ≤ d1 ≤ d2] the value at [d2] is at most the value at [d1], and both
    lie between 1.960 and 12.706. *)
Theorem critical_value_decreases (d1 d2 : Z) :
  1 ≤ d1 ≤ d2 →
  ∃ c1 c2,
    _tdist95conf_level (inject_Z d1) = Ok c1 ∧
    _tdist95conf_level (inject_Z d2) = Ok c2 ∧
    (1.960 <= c2)%Q ∧ (c2 <= c1)%Q ∧ (c1 <= 12.706)%Q.
Proof.
  intros [Hd1 Hd12]. rewrite !tdist95conf_level_unfold, !py_round_int.
  replace d2 with (d1 + Z.of_nat (Z.to_nat (d2 - d1))) by lia.
  generalize (Z.to_nat (d2 - d1)). clear d2 Hd12. intros n.
  induction n as [|n (c1 & c2 & H1 & H2 & Hlo & Hle & Hhi)].
  - destruct (critical_value_step d1 Hd1) as (c & c' & Hc & Hc' & ? & ? & ?).
    exists c, c. rewrite Z.add_0_r. repeat split; try done.
    + by apply Qle_trans with c'.
    + apply Qle_refl.
  - destruct (critical_value_step (d1 + Z.of_nat n) ltac:(lia))
      as (c & c' & Hc & Hc' & Hstep & Hlo' & _).
    rewrite H2 in Hc. injection Hc as <-.
    exists c1, c'. replace (d1 + Z.of_nat (S n)) with (d1 + Z.of_nat n + 1) by lia.
    repeat split; try done. by apply Qle_trans with c2.
Qed.

Lemma critical_value_decreases_witness :
  ∃ c1 c2,
    _tdist95conf_level (inject_Z 2) = Ok c1 ∧
    _tdist95conf_level (inject_Z 58) = Ok c2 ∧
    (1.960 <= c2)%Q ∧ (c2 <= c1)%Q ∧ (c1 <= 12.706)%Q.
Proof. apply (critical_value_decreases 2 58). lia. Defined.

Lemma critical_value_positive (d : Z) (c : Q) :
  1 ≤ d → _tdist95conf_level (inject_Z d) = Ok c → (0 < Q2R c)%R.
Proof.
  intros Hd Hc. rewrite tdist95conf_level_unfold, py_round_int in Hc.
  destruct (critical_value_step d Hd) as (c0 & c' & Hc0 & _ & Hle & Hlo & _).
  rewrite Hc in Hc0. injection Hc0 as <-.
  assert (Hpos : (0 < c)%Q).
  { apply Qlt_le_trans with 1.960%Q; [done|]. by apply Qle_trans with c'. }
  apply Qlt_Rlt in Hpos. by rewrite RMicromega.Q2R_0 in Hpos.
Qed.

End CriticalValueOrder.

Section SignificanceSymmetry.
Import Significance SignificanceSpec.

Lemma pooled_variance_swap (a b : list R) :
  a ≠ [] → b ≠ [] →
  _pooled_sample_variance b a = _pooled_sample_variance a b.
Proof.
  intros Ha Hb. unfold _pooled_sample_variance.
  rewrite !statistics_mean_nonempty by done. cbn [rbind].
  by rewrite Rplus_comm, (Z.add_comm (Z.of_nat (length b))).
Qed.

Lemma tscore_swap (a b : list R) :
  _tscore b a =
    match _tscore a b with
    | Ok t => Ok (- t)%R
    | Raise e => Raise e
    end.
Proof.
  unfold _tscore. rewrite (Nat.eqb_sym (length b)).
  destruct (Nat.eqb_spec (length a) (length b)) as [Hlen|]; [|done]. cbn [negb].
  destruct a as [|x a], b as [|y b]; try done.
  rewrite pooled_variance_swap by done. rewrite <- Hlen.
  destruct (_pooled_sample_variance _ _) as [v|]; [|done]. cbn [rbind].
  destruct (truediv v _) as [err|]; [|done]. cbn [rbind].
  rewrite !statistics_mean_nonempty by done. cbn [rbind].
  destruct (math_sqrt _) as [root|]; [|done]. cbn [rbind].
  unfold truediv. destruct (Req_dec_T root 0); [done|].
  f_equal. field. done.
Qed.

(** X16. Exchanging the two samples negates the score and keeps the verdict,
    and keeps the exception when there is one. *)
Theorem is_significant_symmetric (a b : list R) :
  is_significant b a =
    match is_significant a b with
    | Ok (significant, t) => Ok (significant, (- t)%R)
    | Raise e => Raise e
    end.
Proof.
  unfold is_significant.
  rewrite (Z.add_comm (Z.of_nat (length b))).
  destruct (_tdist95conf_level _) as [cv|]; [|done]. cbn [rbind].
  rewrite tscore_swap. destruct (_tscore a b) as [t|]; [|done]. cbn [rbind].
  by rewrite Rabs_Ropp.
Qed.



End SignificanceSymmetry.

Section SignificanceUnits.
Import Significance SignificanceSpec SignificanceMore.

Variables k c : R.
Hypothesis k_pos : (0 < k)%R.

Lemma fsum_rescale (xs : list R) :
  fsum (rescale k c <$> xs) = (k * fsum xs + c * INR (length xs))%R.
Proof.
  induction xs as [|x xs IH]; [cbn; lra|].
  rewrite fmap_cons. cbn [length]. rewrite S_INR.
  unfold fsum in *. cbn [foldr]. rewrite IH. unfold rescale. lra.
Qed.

Lemma mean_rescale (xs : list R) :
  xs ≠ [] → mean (rescale k c <$> xs) = (k * mean xs + c)%R.
Proof.
  intros Hne. unfold mean. rewrite fsum_rescale, length_fmap.
  assert (0 < INR (length xs))%R
    by (apply lt_0_INR; destruct xs; [done|cbn; lia]).
  field. lra.
Qed.

Lemma fsum_squares_rescale (m : R) (xs : list R) :
  fsum ((λ y, (y - (k * m + c)) ^ 2)%R <$> (rescale k c <$> xs))
  = (k ^ 2 * fsum ((λ x, (x - m) ^ 2)%R <$> xs))%R.
Proof.
  induction xs as [|x xs IH]; [cbn; lra|].
  rewrite !fmap_cons. unfold fsum in *. cbn [foldr]. rewrite IH.
  unfold rescale. ring.
Qed.

Lemma squared_deviations_rescale (xs : list R) :
  xs ≠ [] →
  squared_deviations (rescale k c <$> xs) = (k ^ 2 * squared_deviations xs)%R.
Proof.
  intros Hne. unfold squared_deviations.
  by rewrite mean_rescale, fsum_squares_rescale.
Qed.

Lemma pooled_variance_rescale (a b : list R) :
  a ≠ [] → b ≠ [] →
  pooled_sample_variance (rescale k c <$> a) (rescale k c <$> b)
  = (k ^ 2 * pooled_sample_variance a b)%R.
Proof.
  intros Ha Hb. unfold pooled_sample_variance.
  rewrite !squared_deviations_rescale, !length_fmap by done.
  unfold Rdiv. ring.
Qed.

Lemma t_score_rescale (a b : list R) :
  a ≠ [] → b ≠ [] → (3 ≤ length a + length b)%nat →
  pooled_sample_variance a b ≠ 0%R →
  t_score (rescale k c <$> a) (rescale k c <$> b) = t_score a b.
Proof.
  intros Ha Hb Hlen Hvar. unfold t_score.
  rewrite !mean_rescale, pooled_variance_rescale, length_fmap by done.
  pose proof (pooled_variance_nonneg a b Hlen) as Hge.
  assert (Hn : (0 < INR (length a))%R)
    by (apply lt_0_INR; destruct a; [done|cbn; lia]).
  set (v := pooled_sample_variance a b) in *.
  assert (Hrad : (0 < 2 * v / INR (length a))%R).
  { apply Rdiv_lt_0_compat; lra. }
  replace (2 * (k ^ 2 * v) / INR (length a))%R
    with (k ^ 2 * (2 * v / INR (length a)))%R by (field; lra).
  rewrite sqrt_mult by nra.
  replace (k ^ 2)%R with (k * k)%R by ring.
  rewrite sqrt_square by lra.
  assert (Hroot : (0 < sqrt (2 * v / INR (length a)))%R)
    by (by apply sqrt_lt_R0).
  field. lra.
Qed.

Lemma tscore_rescale (a b : list R) :
  _tscore (rescale k c <$> a) (rescale k c <$> b) = _tscore a b.
Proof.
  destruct (Nat.eq_dec (length a) (length b)) as [Hlen|Hne].
  2: { unfold _tscore. rewrite !length_fmap.
       by destruct (Nat.eqb_spec (length a) (length b)). }
  destruct a as [|x [|x' a]], b as [|y [|y' b]]; try done.
  { change (_tscore [rescale k c x] [rescale k c y] = _tscore [x] [y]).
    by rewrite !tscore_singletons. }
  set (a' := x :: x' :: a) in *. set (b' := y :: y' :: b) in *.
  assert (Ha : a' ≠ []) by done. assert (Hb : b' ≠ []) by done.
  assert (Hn : (2 ≤ length a')%nat) by (cbn; lia).
  destruct (Req_dec_T (pooled_sample_variance a' b') 0) as [Hz|Hnz].
  - rewrite (tscore_zero_variance a' b') by done.
    apply tscore_zero_variance; rewrite ?length_fmap; try done.
    rewrite pooled_variance_rescale, Hz by done. ring.
  - rewrite (tscore_value a' b') by done.
    rewrite tscore_value; rewrite ?length_fmap; try done.
    + f_equal. apply t_score_rescale; try done. lia.
    + rewrite pooled_variance_rescale by done.
      apply Rmult_integral_contrapositive_currified; [|done].
      apply pow_nonzero. lra.
Qed.

End SignificanceUnits.

Section SignificanceUnitsTheorem.
Import Significance SignificanceSpec SignificanceMore.



End SignificanceUnitsTheorem.

(** ** Durations *)

Section TimedeltaProperties.
Import Significance Timedelta.

Lemma find_exponent_in (candidates : list Z) (ref_value : Q) :
  find_exponent candidates ref_value = -9 ∨
  find_exponent candidates ref_value ∈ candidates.
Proof.
  induction candidates as [|i rest IH]; [by left|]. cbn [find_exponent].
  destruct (Qle_bool _ _); [right; by left|].
  destruct IH as [->|IH]; [by left|right; by right].
Qed.

Lemma find_exponent_range (ref_value : Q) :
  -9 ≤ find_exponent exponents ref_value ≤ 2.
Proof.
  destruct (find_exponent_in exponents ref_value) as [->|Hin]; [lia|].
  generalize dependent (find_exponent exponents ref_value). intros i Hin.
  unfold exponents in Hin. repeat (apply elem_of_cons in Hin as [->|Hin]; [lia|]).
  by apply elem_of_nil in Hin.
Qed.

Lemma unit_index_range (i : Z) :
  -9 ≤ i ≤ 2 →
  let k := if i <? 0 then - (i / 3) else 0 in
  k = 0 ∨ k = 1 ∨ k = 2 ∨ k = 3.
Proof.
  intros Hi. cbn. destruct (Z.ltb_spec i 0); [|by left].
  pose proof (Z.div_mod i 3 ltac:(lia)).
  pose proof (Z.mod_pos_bound i 3 ltac:(lia)). lia.
Qed.

(** The unit is looked up inside the table, whatever the first value. *)
Lemma format_timedeltas_shape (first : Q) (rest : list Q) :
  ∃ unit precision factor,
    unit ∈ _TIMEDELTA_UNITS ∧
    _format_timedeltas (first :: rest)
    = Ok ((λ value, format_fixed precision (value * inject_Z factor)
                    +:+ " " +:+ unit) <$> first :: rest).
Proof.
  unfold _format_timedeltas.
  pose proof (find_exponent_range (Qabs first)) as Hi.
  set (i := find_exponent exponents (Qabs first)) in *.
  pose proof (unit_index_range i Hi) as Hk. cbn zeta in Hk.
  set (k := if i <? 0 then - (i / 3) else 0) in *.
  assert (Hunit : ∃ unit, py_getitem _TIMEDELTA_UNITS k = Ok unit ∧
                          unit ∈ _TIMEDELTA_UNITS).
  { clearbody k. destruct Hk as [-> | [-> | [-> | ->]]];
      eexists; (split; [reflexivity|]);
      apply list_elem_of_In; cbn; tauto. }
  destruct Hunit as (unit & -> & Hin). cbn [rbind].
  by eexists unit, _, _.
Qed.



End TimedeltaProperties.

Section TimedeltaDigits.
Import Significance Timedelta.

(** The exponent the loop stops at brackets the reference value. *)
Lemma find_exponent_brackets (ref_value : Q) :
  let i := find_exponent exponents ref_value in
  (i = -9 ∨ (10 ^ i <= ref_value)%Q) ∧ (i = 2 ∨ (ref_value < 10 ^ (i + 1))%Q).
Proof.
  unfold exponents. cbn [find_exponent].
  repeat match goal with
         | |- context [Qle_bool ?a ref_value] =>
             let E := fresh "E" in
             destruct (Qle_bool a ref_value) eqn:E;
             [apply Qle_bool_iff in E
             |apply not_true_iff_false in E; rewrite Qle_bool_iff in E;
              apply Qnot_le_lt in E]
         end; cbn zeta; split; auto.
Qed.

Ltac normalize_powers :=
  repeat match goal with
         | H : context [Qpower ?q ?z] |- _ =>
             let c := eval vm_compute in (Qpower q z) in
             change (Qpower q z) with c in H
         | |- context [Qpower ?q ?z] =>
             let c := eval vm_compute in (Qpower q z) in
             change (Qpower q z) with c
         | |- context [inject_Z (?a ^ ?b)] =>
             let c := eval vm_compute in (inject_Z (a ^ b)) in
             change (inject_Z (a ^ b)) with c
         end.

Lemma scale_three_digits (i : Z) (ref_value : Q) :
  -9 ≤ i ≤ 2 →
  (i = -9 ∨ (10 ^ i <= ref_value)%Q) → (i = 2 ∨ (ref_value < 10 ^ (i + 1))%Q) →
  (10 ^ (-9) <= ref_value < 10 ^ 3)%Q →
  let precision := 2 - i mod 3 in
  let k := if i <? 0 then - (i / 3) else 0 in
  0 ≤ precision ≤ 2 ∧ 0 ≤ k ≤ 3 ∧
  (inject_Z (10 ^ (2 - precision)) <= ref_value * inject_Z (10 ^ (k * 3))
   < inject_Z (10 ^ (3 - precision)))%Q.
Proof.
  intros Hi Hlo Hhi [Hmin Hmax].
  assert (Hcases : i = -9 ∨ i = -8 ∨ i = -7 ∨ i = -6 ∨ i = -5 ∨ i = -4 ∨
                   i = -3 ∨ i = -2 ∨ i = -1 ∨ i = 0 ∨ i = 1 ∨ i = 2) by lia.
  repeat (destruct Hcases as [-> | Hcases]); [..|subst i];
    (destruct Hlo as [Hlo|Hlo]; [try discriminate Hlo|]);
    (destruct Hhi as [Hhi|Hhi]; [try discriminate Hhi|]);
    cbn -[Qle Qlt Qmult inject_Z Z.pow Z.modulo Z.div];
    repeat match goal with
           | |- context [Z.modulo ?a ?b] =>
               let c := eval vm_compute in (Z.modulo a b) in
               change (Z.modulo a b) with c
           | |- context [Z.div ?a ?b] =>
               let c := eval vm_compute in (Z.div a b) in
               change (Z.div a b) with c
           end;
    (split; [lia|]); (split; [lia|]); normalize_powers; Lqa.lra.
Qed.



End TimedeltaDigits.

(** ** What the abbreviation keeps *)

Section FormatterMagnitude.
Import Formatter.

Lemma decimal_magnitude_unique (n a b : Z) :
  0 ≤ a → 0 ≤ b → 10 ^ a ≤ n < 10 ^ (a + 1) → 10 ^ b ≤ n < 10 ^ (b + 1) →
  a = b.
Proof.
  intros Ha Hb [Ha1 Ha2] [Hb1 Hb2].
  destruct (Z.lt_trichotomy a b) as [Hlt|[->|Hgt]]; [|done|].
  - pose proof (Z.pow_le_mono_r 10 (a + 1) b ltac:(lia) ltac:(lia)). lia.
  - pose proof (Z.pow_le_mono_r 10 (b + 1) a ltac:(lia) ltac:(lia)). lia.
Qed.

(** X21. Of a multiple of ten from 10000 on, [_format_number] keeps the
    number of digits and nothing else: two such numbers with the same
    number of digits are rendered alike, with or without a unit. *)
Theorem format_number_keeps_magnitude (n m k : Z) (unit units : option string) :
  0 ≤ k → 10000 ≤ n → n mod 10 = 0 → m mod 10 = 0 →
  10 ^ k ≤ n < 10 ^ (k + 1) → 10 ^ k ≤ m < 10 ^ (k + 1) →
  _format_number n unit units = _format_number m unit units ∧
  _format_number n None None = "10^" +:+ py_str k.
Proof.
  intros Hk Hn Hn10 Hm10 Hnk Hmk.
  assert (Hk4 : 4 ≤ k).
  { destruct (Z.lt_ge_cases k 4) as [Hlt|]; [|done].
    pose proof (Z.pow_le_mono_r 10 (k + 1) 4 ltac:(lia) ltac:(lia)) as Hp.
    change (10 ^ 4) with 10000 in Hp. lia. }
  assert (Hm : 10000 ≤ m).
  { pose proof (Z.pow_le_mono_r 10 4 k ltac:(lia) ltac:(lia)) as Hp.
    change (10 ^ 4) with 10000 in Hp. lia. }
  assert (Htext : ∀ x, 10000 ≤ x → x mod 10 = 0 → 10 ^ k ≤ x < 10 ^ (k + 1) →
            pow10_loop (Z.to_nat x) x 0 = k).
  { intros x Hx _ Hxk.
    destruct (pow10_loop_log (Z.to_nat x) x 0) as (j & Hj & Hb & ->); [lia..|].
    rewrite Z.add_0_l. by apply (decimal_magnitude_unique x). }
  unfold _format_number.
  destruct (Z.leb_spec 10000 n); [|lia]. destruct (Z.leb_spec 10000 m); [|lia].
  rewrite Hn10, Hm10. cbn [Z.eqb andb].
  rewrite (Htext n), (Htext m) by done.
  assert (Hplural : ∀ x, 10000 ≤ x → (1 <? Z.abs x) = true)
    by (intros x Hx; apply Z.ltb_lt; lia).
  by rewrite !Hplural by done.
Qed.

Lemma format_number_keeps_magnitude_witness :
  _format_number 20000 (Some "loop") None = _format_number 99990 (Some "loop") None.
Proof.
  apply (format_number_keeps_magnitude 20000 99990 4); by vm_compute || lia.
Defined.

End FormatterMagnitude.

(** ** Lists of runs and of CPUs *)

Section IntegerText.
Import Bench Formatter Parsing ParsingSpec.

Lemma pretty_N_char_digit (d : N) :
  (d < 10)%N →
  digit_value (pretty_N_char d) = Some (Z.of_N d) ∧
  Ascii.eqb (pretty_N_char d) "_" = false.
Proof.
  intros Hd.
  assert (Hcases : (d = 0 ∨ d = 1 ∨ d = 2 ∨ d = 3 ∨ d = 4 ∨ d = 5 ∨ d = 6 ∨
                   d = 7 ∨ d = 8 ∨ d = 9)%N) by lia.
  repeat (destruct Hcases as [-> | Hcases]); try subst d; by vm_compute.
Qed.

(** Reading the digits that [pretty] wrote gives the number back, and
    they are digits. *)
Lemma parse_digits_pretty_go (x : N) :
  ∃ k, ∀ acc s,
    parse_digits acc (pretty_N_go x s)
    = parse_digits (acc * 10 ^ Z.of_nat k + Z.of_N x) s ∧
    all_chars is_digit (pretty_N_go x s) = all_chars is_digit s.
Proof.
  induction (N.lt_wf_0 x) as [x _ IH].
  destruct (decide (x = 0)%N) as [->|Hx].
  { exists 0%nat. intros acc s. rewrite pretty_N_go_0. split; [|done].
    f_equal. cbn. lia. }
  destruct (IH (x `div` 10)%N) as [k Hk].
  { apply N.div_lt; lia. }
  exists (S k). intros acc s. rewrite pretty_N_go_step by lia.
  destruct (Hk acc (String (pretty_N_char (x `mod` 10)) s)) as [-> ->].
  destruct (pretty_N_char_digit (x `mod` 10)%N) as [Hd Hu].
  { apply N.mod_lt. lia. }
  cbn [parse_digits all_chars]. rewrite Hu, Hd. unfold is_digit. rewrite Hd.
  split; [|done]. f_equal.
  rewrite Nat2Z.inj_succ, Z.pow_succ_r by lia.
  pose proof (N.div_mod x 10 ltac:(lia)) as Hdm.
  assert (Z.of_N x = 10 * Z.of_N (x `div` 10) + Z.of_N (x `mod` 10)) by lia.
  lia.
Qed.

Lemma py_str_nonneg (n : Z) :
  0 ≤ n →
  parse_digits 0 (py_str n) = Some n ∧ all_chars is_digit (py_str n) = true ∧
  py_str n ≠ EmptyString.
Proof.
  intros Hn. unfold py_str.
  destruct n as [|p|p]; [by vm_compute| |lia].
  change (pretty (Z.pos p)) with (pretty_N_go (N.pos p) EmptyString).
  destruct (parse_digits_pretty_go (N.pos p)) as [k Hk].
  destruct (Hk 0 EmptyString) as [Hparse Hall].
  assert (Hvalue : parse_digits 0 (pretty_N_go (N.pos p) EmptyString)
                   = Some (Z.pos p)).
  { rewrite Hparse. cbn [parse_digits]. f_equal; lia. }
  split; [done|]. split; [done|]. intros Hempty. by rewrite Hempty in Hvalue.
Qed.

End IntegerText.

Section TextLemmas.
Import Bench Formatter Parsing ParsingSpec.

Lemma all_chars_impl (P Q : ascii → bool) (s : string) :
  (∀ c, P c = true → Q c = true) →
  all_chars P s = true → all_chars Q s = true.
Proof.
  intros HPQ. induction s as [|c s IH]; [done|]. cbn [all_chars].
  intros [Hc Hs]%andb_prop. by rewrite (HPQ _ Hc), IH.
Qed.

Lemma all_chars_app (P : ascii → bool) (s t : string) :
  all_chars P (s +:+ t) = all_chars P s && all_chars P t.
Proof.
  induction s as [|c s IH]; [done|].
  change (String c s +:+ t) with (String c (s +:+ t)).
  cbn [all_chars]. by rewrite IH, andb_assoc.
Qed.

Lemma cpu_list_char_facts (c : ascii) :
  cpu_list_char c = true → is_space c = false.
Proof.
  destruct c as [[] [] [] [] [] [] [] []]; by vm_compute.
Qed.

Lemma digit_or_dash_facts (c : ascii) :
  digit_or_dash c = true →
  Ascii.eqb c "," = false ∧ cpu_list_char c = true.
Proof.
  destruct c as [[] [] [] [] [] [] [] []]; by vm_compute.
Qed.

Lemma is_digit_facts (c : ascii) :
  is_digit c = true →
  Ascii.eqb c "-" = false ∧ Ascii.eqb c "+" = false ∧
  digit_or_dash c = true ∧ is_space c = false.
Proof.
  destruct c as [[] [] [] [] [] [] [] []]; by vm_compute.
Qed.

Lemma rstrip_no_space (s : string) :
  all_chars (λ c, negb (is_space c)) s = true → rstrip s = s.
Proof.
  induction s as [|c s IH]; [done|]. cbn [all_chars].
  intros [Hc Hs]%andb_prop. rewrite rstrip_cons, (IH Hs).
  apply negb_true_iff in Hc. rewrite Hc. by destruct s.
Qed.

Lemma strip_no_space (s : string) :
  all_chars (λ c, negb (is_space c)) s = true → strip s = s.
Proof.
  intros Hs. unfold strip.
  assert (lstrip s = s) as ->; [|by apply rstrip_no_space].
  destruct s as [|c s]; [done|]. cbn [all_chars] in Hs.
  apply andb_prop in Hs as [Hc%negb_true_iff _]. cbn [lstrip]. by rewrite Hc.
Qed.

Lemma strip_digits (s : string) :
  all_chars is_digit s = true → strip s = s.
Proof.
  intros Hs. apply strip_no_space. revert Hs. apply all_chars_impl.
  intros c Hc. apply negb_true_iff. by apply is_digit_facts.
Qed.

Lemma split_once_digits (s : string) :
  all_chars is_digit s = true → split_once "-" s = None.
Proof.
  induction s as [|c s IH]; [done|]. cbn [all_chars].
  intros [Hc Hs]%andb_prop. cbn [split_once].
  destruct (is_digit_facts c Hc) as [-> _]. by rewrite (IH Hs).
Qed.

Lemma split_once_dash (s t : string) :
  all_chars is_digit s = true →
  split_once "-" (s +:+ "-" +:+ t) = Some (s, t).
Proof.
  induction s as [|c s IH]; [done|]. cbn [all_chars].
  intros [Hc Hs]%andb_prop.
  change (String c s +:+ "-" +:+ t) with (String c (s +:+ "-" +:+ t)).
  cbn [split_once]. destruct (is_digit_facts c Hc) as [-> _].
  by rewrite (IH Hs).
Qed.

Lemma split_on_part (part : string) :
  all_chars digit_or_dash part = true → split_on "," part = [part].
Proof.
  induction part as [|c s IH]; [done|]. cbn [all_chars].
  intros [Hc Hs]%andb_prop. cbn [split_on].
  destruct (digit_or_dash_facts c Hc) as [-> _]. by rewrite (IH Hs).
Qed.

Lemma split_on_more (part rest : string) :
  all_chars digit_or_dash part = true →
  split_on "," (part +:+ "," +:+ rest) = part :: split_on "," rest.
Proof.
  induction part as [|c s IH]; [done|]. cbn [all_chars].
  intros [Hc Hs]%andb_prop.
  change (String c s +:+ "," +:+ rest) with (String c (s +:+ "," +:+ rest)).
  cbn [split_on]. destruct (digit_or_dash_facts c Hc) as [-> _].
  by rewrite (IH Hs).
Qed.

Lemma cpu_part_inv (part : string) :
  cpu_part part = true →
  part ≠ EmptyString ∧ all_chars digit_or_dash part = true.
Proof.
  unfold cpu_part. intros [Hne Hall]%andb_prop. split; [|done].
  intros ->. done.
Qed.

(** [split(',')] undoes [','.join] on parts without a comma. *)
Lemma split_on_concat (parts : list string) :
  parts ≠ [] →
  Forall (λ part, cpu_part part = true) parts →
  split_on "," (String.concat "," parts) = parts.
Proof.
  induction parts as [|part parts IH]; [done|]. intros _ Hparts.
  apply Forall_cons in Hparts as [[_ Hpart]%cpu_part_inv Hparts].
  destruct parts as [|part' parts].
  - by apply split_on_part.
  - change (String.concat "," (part :: part' :: parts))
      with (part +:+ "," +:+ String.concat "," (part' :: parts)).
    rewrite split_on_more by done. by rewrite IH.
Qed.

Lemma concat_chars (parts : list string) :
  parts ≠ [] →
  Forall (λ part, cpu_part part = true) parts →
  String.concat "," parts ≠ EmptyString ∧
  all_chars cpu_list_char (String.concat "," parts) = true.
Proof.
  induction parts as [|part parts IH]; [done|]. intros _ Hparts.
  apply Forall_cons in Hparts as [[Hne Hpart]%cpu_part_inv Hparts].
  assert (Hchars : all_chars cpu_list_char part = true).
  { revert Hpart. apply all_chars_impl. intros c Hc.
    by apply digit_or_dash_facts. }
  destruct parts as [|part' parts]; [done|].
  change (String.concat "," (part :: part' :: parts))
    with (part +:+ "," +:+ String.concat "," (part' :: parts)).
  destruct IH as [_ IH]; [done..|]. split.
  - destruct part; [done|]. done.
  - rewrite !all_chars_app, Hchars, IH. done.
Qed.

(** [int] reads what [str] wrote. *)
Lemma py_int_py_str (n : Z) : 0 ≤ n → py_int (py_str n) = Ok n.
Proof.
  intros Hn. destruct (py_str_nonneg n Hn) as (Hparse & Hdigits & Hne).
  unfold py_int. rewrite strip_digits by done.
  destruct (py_str n) as [|c s] eqn:Htext; [done|].
  cbn [all_chars] in Hdigits. apply andb_prop in Hdigits as [Hc _].
  destruct (is_digit_facts c Hc) as (Hdash & Hplus & _).
  assert (Hbody : match String c s with
                  | String "-" rest => (true, rest)
                  | String "+" rest => (false, rest)
                  | _ => (false, String c s)
                  end = (false, String c s)).
  { destruct c as [[] [] [] [] [] [] [] []]; done. }
  rewrite Hbody, Hparse. unfold is_digit in Hc.
  by destruct (digit_value c).
Qed.

Lemma py_range_one (n : Z) : py_range n (n + 1) = [n].
Proof.
  unfold py_range. replace (n + 1 - n) with 1 by lia.
  change (Z.to_nat 1) with 1%nat. cbn [seq fmap list_fmap]. f_equal. lia.
Qed.

Lemma py_range_extend (first last : Z) :
  first ≤ last →
  py_range first (last + 1 + 1) = py_range first (last + 1) ++ [last + 1].
Proof.
  intros Hle. unfold py_range.
  replace (Z.to_nat (last + 1 + 1 - first))
    with (S (Z.to_nat (last + 1 - first))) by lia.
  rewrite seq_S, fmap_app. cbn [fmap list_fmap]. do 2 f_equal. lia.
Qed.

Lemma parse_parts_app (parts parts' : list string) (xs ys : list Z) :
  parse_parts parts = Ok xs → parse_parts parts' = Ok ys →
  parse_parts (parts ++ parts') = Ok (xs ++ ys).
Proof.
  revert xs. induction parts as [|part parts IH]; intros xs Hxs Hys.
  - cbn in Hxs. by injection Hxs as <-.
  - cbn [parse_parts app] in *.
    destruct (parse_part part) as [numbers|]; [|done]. cbn [rbind] in *.
    destruct (parse_parts parts) as [others|]; [|done]. cbn [rbind] in *.
    injection Hxs as <-. rewrite (IH others eq_refl Hys). cbn [rbind].
    by rewrite app_assoc.
Qed.

(** What the writer appends for the CPUs [first..last] is read back as
    these CPUs. *)
Lemma close_range_parses (parts : list string) (xs : list Z) (first last : Z) :
  0 ≤ first ≤ last →
  Forall (λ part, cpu_part part = true) parts →
  parse_parts parts = Ok xs →
  Forall (λ part, cpu_part part = true)
    (close_range parts (Some first) (Some last)) ∧
  parse_parts (close_range parts (Some first) (Some last))
  = Ok (xs ++ py_range first (last + 1)).
Proof.
  intros Hrange Hparts Hxs.
  destruct (py_str_nonneg first) as (_ & Hf & Hfne); [lia|].
  destruct (py_str_nonneg last) as (_ & Hl & Hlne); [lia|].
  assert (Hdash : ∀ s, all_chars is_digit s = true →
                       all_chars digit_or_dash s = true).
  { intros s. apply all_chars_impl. intros c Hc. by apply is_digit_facts. }
  unfold close_range. case_bool_decide as Hne.
  - assert (first < last) by (destruct (decide (first = last)); [congruence|lia]).
    split.
    + apply Forall_app. split; [done|]. apply Forall_singleton.
      unfold cpu_part. cbn [str_or_none]. apply andb_true_intro. split.
      * destruct (py_str first); [done|]. done.
      * rewrite !all_chars_app, (Hdash _ Hf), (Hdash _ Hl). done.
    + apply parse_parts_app; [done|]. cbn [parse_parts str_or_none].
      unfold parse_part.
      assert (Hstrip : strip (py_str first +:+ "-" +:+ py_str last)
                       = py_str first +:+ "-" +:+ py_str last).
      { apply strip_no_space. rewrite !all_chars_app.
        rewrite (all_chars_impl is_digit _ (py_str first)); [|
          intros c Hc; apply negb_true_iff; by apply is_digit_facts|done].
        rewrite (all_chars_impl is_digit _ (py_str last)); [|
          intros c Hc; apply negb_true_iff; by apply is_digit_facts|done].
        done. }
      rewrite Hstrip, split_once_dash by done.
      rewrite !py_int_py_str by lia. cbn [rbind]. by rewrite app_nil_r.
  - assert (first = last) as -> by congruence.
    split.
    + apply Forall_app. split; [done|]. apply Forall_singleton.
      unfold cpu_part. cbn [str_or_none]. apply andb_true_intro. split.
      * destruct (py_str last); [done|]. done.
      * by apply Hdash.
    + apply parse_parts_app; [done|]. cbn [parse_parts str_or_none].
      unfold parse_part. rewrite strip_digits, split_once_digits by done.
      rewrite py_int_py_str by lia. cbn [rbind]. by rewrite py_range_one.
Qed.

(** The loop of [_format_cpu_list] leaves parts that are read back as the
    CPUs it went through, in their order. *)
Lemma cpu_loop_parses (cpus : list Z) :
  ∀ (parts : list string) (xs : list Z) (first last : Z),
    Forall (λ cpu, 0 ≤ cpu) cpus → 0 ≤ first ≤ last →
    Forall (λ part, cpu_part part = true) parts →
    parse_parts parts = Ok xs →
    ∃ parts' first' last',
      cpu_loop cpus parts (Some first) (Some last)
      = Ok (parts', Some first', Some last') ∧
      Forall (λ part, cpu_part part = true)
        (close_range parts' (Some first') (Some last')) ∧
      parse_parts (close_range parts' (Some first') (Some last'))
      = Ok (xs ++ py_range first (last + 1) ++ cpus).
Proof.
  induction cpus as [|cpu cpus IH]; intros parts xs first last Hcpus Hrange
    Hparts Hxs.
  - exists parts, first, last. split; [done|]. rewrite app_nil_r.
    by apply close_range_parses.
  - apply Forall_cons in Hcpus as [Hcpu Hcpus]. cbn [cpu_loop].
    destruct (Z.eqb_spec cpu (last + 1)) as [->|Hne]; cbn [negb].
    + destruct (IH parts xs first (last + 1)) as (p & f & l & -> & Hp & Hq);
        [done|lia|done..|].
      exists p, f, l. split; [done|]. split; [done|].
      rewrite Hq, py_range_extend by lia. by rewrite <- !app_assoc.
    + destruct (close_range_parses parts xs first last) as [Hparts' Hxs'];
        [done..|].
      destruct (IH _ _ cpu cpu Hcpus ltac:(lia) Hparts' Hxs')
        as (p & f & l & -> & Hp & Hq).
      exists p, f, l. split; [done|]. split; [done|].
      by rewrite Hq, py_range_one, <- !app_assoc.
Qed.

Lemma close_range_nonempty (parts : list string) (first last : option Z) :
  close_range parts first last ≠ [].
Proof.
  unfold close_range. case_bool_decide; by destruct parts.
Qed.

End TextLemmas.

Section CpuListProperties.
Import Bench Formatter Parsing ParsingSpec.

(** X22. [_parse_cpu_list] reads what [_format_cpu_list] wrote: for a list of
    CPUs that is not empty and has no negative number, the text of
    [_format_cpu_list] is parsed by [_parse_cpu_list] as the sorted list,
    duplicates included. *)
Theorem cpu_list_round_trip (cpus : list Z) :
  cpus ≠ [] → Forall (λ cpu, 0 ≤ cpu) cpus →
  ∃ text, _format_cpu_list cpus = Ok text ∧
          _parse_cpu_list text = Ok (Some (merge_sort Z.le cpus)).
Proof.
  intros Hne Hcpus. unfold _format_cpu_list.
  pose proof (merge_sort_Permutation Z.le cpus) as Hperm.
  assert (Hsorted : Forall (λ cpu, 0 ≤ cpu) (merge_sort Z.le cpus)).
  { by rewrite Hperm. }
  destruct (merge_sort Z.le cpus) as [|cpu rest] eqn:Hsort.
  { apply Permutation_nil_l in Hperm. done. }
  apply Forall_cons in Hsorted as [Hcpu Hrest]. cbn [cpu_loop].
  destruct (cpu_loop_parses rest [] [] cpu cpu Hrest ltac:(lia)
              (Forall_nil_2 _) eq_refl) as (p & f & l & -> & Hp & Hparse).
  eexists. split; [done|]. unfold _parse_cpu_list.
  destruct (concat_chars (close_range p (Some f) (Some l))) as [Htext Hchars];
    [apply close_range_nonempty|done|].
  rewrite strip_no_space.
  2: { revert Hchars. apply all_chars_impl. intros c Hc.
       apply negb_true_iff. by apply cpu_list_char_facts. }
  destruct (String.eqb_spec (String.concat "," (close_range p (Some f) (Some l)))
              EmptyString) as [|_]; [done|].
  rewrite split_on_concat; [|apply close_range_nonempty|done].
  rewrite Hparse. cbn [rbind app]. by rewrite py_range_one.
Qed.

Lemma cpu_list_round_trip_witness :
  ∃ text, _format_cpu_list [3; 1; 2; 7; 5; 9; 10; 1] = Ok text ∧
          _parse_cpu_list text
          = Ok (Some (merge_sort Z.le [3; 1; 2; 7; 5; 9; 10; 1])).
Proof.
  apply cpu_list_round_trip; [done|]. repeat constructor; lia.
Defined.

End CpuListProperties.

Section RunListProperties.
Import Bench Formatter Parsing ParsingSpec.

Lemma py_int_raises (s : string) (e : exn) :
  py_int s = Raise e → e = ValueError.
Proof.
  unfold py_int.
  destruct (match strip s with
            | String "-" rest => (true, rest)
            | String "+" rest => (false, rest)
            | _ => (false, strip s)
            end) as [negative body].
  destruct body as [|c body]; [congruence|].
  destruct (digit_value c); [|congruence].
  destruct (parse_digits 0 (String c body)); congruence.
Qed.

Lemma parse_part_raises (part : string) (e : exn) :
  parse_part part = Raise e → e = ValueError.
Proof.
  unfold parse_part.
  destruct (split_once "-" (strip part)) as [[part0 part1]|].
  - destruct (py_int part0) eqn:H0; cbn [rbind];
      [|intros [= <-]; by eapply py_int_raises].
    destruct (py_int part1) eqn:H1; cbn [rbind]; [done|].
    intros [= <-]. by eapply py_int_raises.
  - destruct (py_int (strip part)) eqn:H0; cbn [rbind]; [done|].
    intros [= <-]. by eapply py_int_raises.
Qed.

Lemma parse_parts_raises (parts : list string) (e : exn) :
  parse_parts parts = Raise e → e = ValueError.
Proof.
  induction parts as [|part parts IH]; [done|]. cbn [parse_parts].
  destruct (parse_part part) eqn:Hpart; cbn [rbind];
    [|intros [= <-]; by eapply parse_part_raises].
  destruct (parse_parts parts); cbn [rbind]; [done|].
  intros [= <-]. by apply IH.
Qed.

Lemma min_bounds (run : Z) (others : list Z) :
  1 ≤ foldr Z.min run others → Forall (λ r, 1 ≤ r) (run :: others).
Proof.
  induction others as [|r others IH]; cbn [foldr].
  - intros. by apply Forall_singleton.
  - intros Hmin. assert (Hrest : 1 ≤ foldr Z.min run others) by lia.
    apply IH, Forall_cons in Hrest as [Hrun Hothers].
    repeat constructor; [done|lia|done].
Qed.

(** X23. [_parse_run_list] returns a list of indices that is not empty and
    has no negative index, or it raises [ValueError]: no other exception
    leaves it. *)
Theorem parse_run_list_result (run_list : string) :
  match _parse_run_list run_list with
  | Ok runs => runs ≠ [] ∧ Forall (λ run, 0 ≤ run) runs
  | Raise e => e = ValueError
  end.
Proof.
  unfold _parse_run_list.
  destruct (parse_parts (split_on "," (strip run_list))) as [runs|e] eqn:Hruns;
    cbn [rbind]; [|by eapply parse_parts_raises].
  destruct runs as [|run others]; [done|].
  destruct (Z.ltb_spec (foldr Z.min run others) 1) as [|Hmin]; [done|].
  split; [done|]. apply min_bounds in Hmin.
  apply Forall_fmap. eapply Forall_impl; [exact Hmin|].
  intros r Hr. cbn beta in Hr. unfold compose. lia.
Qed.

End RunListProperties.

Section CpuTextProperties.
Import Bench Formatter Parsing ParsingSpec.

Lemma py_str_chars (n : Z) :
  all_chars digit_or_dash (py_str n) = true ∧ py_str n ≠ EmptyString.
Proof.
  assert (Hnonneg : ∀ m, 0 ≤ m →
            all_chars digit_or_dash (py_str m) = true ∧
            py_str m ≠ EmptyString).
  { intros m Hm. destruct (py_str_nonneg m Hm) as (_ & Hdigits & Hne).
    split; [|done]. revert Hdigits. apply all_chars_impl.
    intros c Hc. by apply is_digit_facts. }
  destruct n as [|p|p]; [apply Hnonneg; lia..|].
  destruct (Hnonneg (Z.pos p)) as [Hchars _]; [lia|].
  change (py_str (Z.neg p)) with (String "-" (py_str (Z.pos p))).
  split; [|done]. cbn [all_chars]. by rewrite Hchars.
Qed.

Lemma close_range_chars (parts : list string) (first last : Z) :
  Forall (λ part, cpu_part part = true) parts →
  Forall (λ part, cpu_part part = true)
    (close_range parts (Some first) (Some last)).
Proof.
  intros Hparts.
  destruct (py_str_chars first) as [Hf Hfne], (py_str_chars last) as [Hl Hlne].
  unfold close_range. case_bool_decide; apply Forall_app; (split; [done|]);
    apply Forall_singleton; unfold cpu_part; cbn [str_or_none];
    apply andb_true_intro; split.
  - by destruct (py_str first).
  - rewrite !all_chars_app, Hf, Hl. done.
  - by destruct (py_str last).
  - done.
Qed.

(** The loop never meets [None + 1]. *)
Lemma cpu_loop_chars (cpus : list Z) :
  ∀ (parts : list string) (first last : Z),
    Forall (λ part, cpu_part part = true) parts →
    ∃ parts' first' last',
      cpu_loop cpus parts (Some first) (Some last)
      = Ok (parts', Some first', Some last') ∧
      Forall (λ part, cpu_part part = true)
        (close_range parts' (Some first') (Some last')).
Proof.
  induction cpus as [|cpu cpus IH]; intros parts first last Hparts.
  - exists parts, first, last. split; [done|]. by apply close_range_chars.
  - cbn [cpu_loop]. destruct (negb (cpu =? last + 1)).
    + apply IH. by apply close_range_chars.
    + by apply IH.
Qed.

(** X24. [_format_cpu_list] never raises and never returns an empty text.
    For the empty list the text is ["None"], which [_parse_cpu_list] does
    not read; for any other list it is made of digits, dashes and commas
    only, so that stripping it changes nothing. *)
Theorem format_cpu_list_text (cpus : list Z) :
  ∃ text,
    _format_cpu_list cpus = Ok text ∧ text ≠ EmptyString ∧
    (cpus = [] → text = "None" ∧ _parse_cpu_list text = Raise ValueError) ∧
    (cpus ≠ [] → all_chars cpu_list_char text = true ∧ strip text = text).
Proof.
  unfold _format_cpu_list.
  pose proof (merge_sort_Permutation Z.le cpus) as Hperm.
  destruct (merge_sort Z.le cpus) as [|cpu rest] eqn:Hsort.
  - apply Permutation_nil_l in Hperm. subst cpus.
    exists "None". split; [by vm_compute|]. split; [done|]. split; [|done].
    intros _. split; [done|]. by vm_compute.
  - cbn [cpu_loop].
    destruct (cpu_loop_chars rest [] cpu cpu (Forall_nil_2 _))
      as (p & f & l & -> & Hp).
    destruct (concat_chars (close_range p (Some f) (Some l)))
      as [Htext Hchars]; [apply close_range_nonempty|done|].
    eexists. split; [done|]. split; [done|]. split.
    + intros ->. by apply Permutation_nil_r in Hperm.
    + intros _. split; [done|]. apply strip_no_space.
      revert Hchars. apply all_chars_impl. intros c Hc.
      apply negb_true_iff. by apply cpu_list_char_facts.
Qed.

Lemma format_cpu_list_text_witness :
  (∃ text, _format_cpu_list [] = Ok text ∧ text = "None" ∧
           _parse_cpu_list text = Raise ValueError) ∧
  (∃ text, _format_cpu_list [0; -2; -1] = Ok text ∧ strip text = text).
Proof.
  split.
  - destruct (format_cpu_list_text []) as (text & H1 & _ & H2 & _).
    exists text. split; [done|]. by apply H2.
  - destruct (format_cpu_list_text [0; -2; -1]) as (text & H1 & _ & _ & H2).
    exists text. split; [done|]. by apply H2.
Defined.

Lemma parse_parts_numbers (runs : list Z) :
  Forall (λ run, 0 ≤ run) runs → parse_parts (py_str <$> runs) = Ok runs.
Proof.
  induction 1 as [|run runs Hrun _ IH]; [done|].
  rewrite fmap_cons. cbn [parse_parts]. rewrite IH.
  destruct (py_str_nonneg run Hrun) as (_ & Hdigits & _).
  unfold parse_part. rewrite strip_digits, split_once_digits by done.
  by rewrite py_int_py_str.
Qed.

Lemma min_of_bounded (run : Z) (others : list Z) :
  1 ≤ run → Forall (λ r, 1 ≤ r) others → 1 ≤ foldr Z.min run others.
Proof. intros Hrun. induction 1; cbn [foldr]; lia. Qed.

(** X25. [_parse_run_list] reads a list of run numbers written with commas:
    for numbers from 1 on, in any order and with repetitions, it returns
    the same numbers less one, in the same order. *)
Theorem parse_run_list_reads (runs : list Z) :
  runs ≠ [] → Forall (λ run, 1 ≤ run) runs →
  _parse_run_list (String.concat "," (py_str <$> runs))
  = Ok ((λ run, run - 1) <$> runs).
Proof.
  intros Hne Hruns. unfold _parse_run_list.
  assert (Hparts : Forall (λ part, cpu_part part = true) (py_str <$> runs)).
  { apply Forall_fmap. eapply Forall_impl; [exact Hruns|]. intros run _.
    unfold compose, cpu_part. destruct (py_str_chars run) as [-> Hrun].
    by destruct (py_str run). }
  assert (Hsome : py_str <$> runs ≠ []) by (by destruct runs).
  destruct (concat_chars _ Hsome Hparts) as [_ Hchars].
  rewrite strip_no_space.
  2: { revert Hchars. apply all_chars_impl. intros c Hc.
       apply negb_true_iff. by apply cpu_list_char_facts. }
  rewrite split_on_concat by done.
  rewrite parse_parts_numbers.
  2: { eapply Forall_impl; [exact Hruns|]. intros run Hrun.
       cbn beta in Hrun. lia. }
  cbn [rbind]. destruct runs as [|run others]; [done|].
  apply Forall_cons in Hruns as [Hrun Hothers].
  pose proof (min_of_bounded run others Hrun Hothers).
  by destruct (Z.ltb_spec (foldr Z.min run others) 1); [lia|].
Qed.

Lemma parse_run_list_reads_witness :
  _parse_run_list (String.concat "," (py_str <$> [3; 1; 12; 3]))
  = Ok ((λ run, run - 1) <$> [3; 1; 12; 3]).
Proof.
  apply parse_run_list_reads; [done|]. repeat constructor; lia.
Defined.

End CpuTextProperties.
